(** * Lab.jsx: the virtual-lab session component

    A shallow embedding of [frontend/src/components/Lab.jsx] (the WebSocket
    revision of the component): the two pure lookup functions
    [getReactionHint] and [buildRevealMessage], and the event handlers of the
    [Lab] component as state transformers over an explicit session state
    (React refs, React state, the browser objects the handlers talk to, and
    the log of everything the component sends out). *)

From Stdlib Require Import Bool Arith List String Ascii Lia Permutation.
Import ListNotations.

Module Lab.

Local Open Scope string_scope.
Local Open Scope list_scope.

(** Template literals are concatenations. *)
Local Infix "+++" := String.append (right associativity, at level 60).

(** ** JavaScript values *)

(** A value that is either [null]/[undefined] or a string is an
    [option string]; a string is truthy when it is not empty. *)
Definition truthy (o : option string) : bool :=
  match o with
  | Some (String _ _) => true
  | _ => false
  end.

(** [x === 'lit'] for a nullable string [x]. *)
Definition is_str (o : option string) (lit : string) : bool :=
  match o with
  | Some x => String.eqb x lit
  | None => false
  end.

(** [a || b] on nullable strings. *)
Definition or_else (a b : option string) : option string :=
  if truthy a then a else b.

(** [a || b] where [a] is an object or missing: every object is truthy. *)
Definition or_obj {A : Type} (a b : option A) : option A :=
  match a with
  | Some x => Some x
  | None => b
  end.

(** An entry of the catalog served by [GET /reactions/chemicals/]. *)
Record chemical : Type := Chemical {
  id      : string;
  label   : string;
  formula : string;
  type    : option string
}.

(** ** Reaction hint matrix *)

Record hint : Type := Hint {
  reacts : bool;
  icon   : string;
  title  : string;
  detail : string;
  color  : string
}.

Definition getReactionHint (chemType reactionType : option string) : option hint :=
  if negb (truthy chemType) || negb (truthy reactionType) then None else
  let paper := if is_str reactionType "red_litmus" then "Red" else "Blue" in
  let willReact :=
    (is_str reactionType "blue_litmus" && is_str chemType "acid") ||
    (is_str reactionType "red_litmus" && is_str chemType "base") in
  if willReact then
    let turnsTo := if is_str reactionType "blue_litmus" then "RED" else "BLUE" in
    let reason :=
      if is_str chemType "acid"
      then "Acids donate H⁺ ions, causing blue litmus to turn red."
      else "Bases donate OH⁻ ions, causing red litmus to turn blue." in
    Some {| reacts := true;
            icon   := "⚗️";
            title  := paper +++ " litmus paper WILL change colour";
            detail := "Tilt your hand to pour. The paper will turn " +++ turnsTo
                      +++ ". " +++ reason;
            color  := if is_str chemType "acid" then "#f87171" else "#38bdf8" |}
  else
    let detail :=
      if is_str chemType "neutral" then
        paper +++ " litmus paper does NOT change colour with a neutral substance. Neutral substances have no free H⁺ or OH⁻ ions to trigger a reaction."
      else if is_str chemType "acid" then
        paper +++ " litmus paper does NOT change colour in the presence of an acid. Red litmus only changes colour with a base (alkali). Try Blue litmus to test acids."
      else
        paper +++ " litmus paper does NOT change colour in the presence of a base. Blue litmus only changes colour with an acid. Try Red litmus to test bases." in
    Some {| reacts := false;
            icon   := "🔬";
            title  := paper +++ " litmus paper will NOT change colour";
            detail := detail;
            color  := "#a3a3a3" |}.

(** ** Reaction reveal message *)

Record reveal : Type := Reveal {
  headline : string;
  body     : string;
  verdict  : string;
  rcolor   : string
}.

(** A missing [label] or [formula] would print as [undefined]; the catalog
    always carries both, so they are plain strings here. *)
Definition buildRevealMessage (chem : option chemical) (reactionType : option string)
  : option reveal :=
  match chem with
  | None => None
  | Some c =>
    let paperColor := if is_str reactionType "red_litmus" then "Red" else "Blue" in
    if is_str (type c) "neutral" then
      Some {| headline := "No Reaction Observed";
              body := "The " +++ paperColor +++ " Litmus paper did not change colour because "
                      +++ label c +++ " (" +++ formula c
                      +++ ") is a neutral substance — it has no acidic or basic properties to trigger a reaction.";
              verdict := "NEUTRAL";
              rcolor := "#a3a3a3" |}
    else if is_str (type c) "acid" && is_str reactionType "blue_litmus" then
      Some {| headline := "Acid Detected!";
              body := "The Blue Litmus paper turned Red because " +++ label c +++ " ("
                      +++ formula c
                      +++ ") is an acid. Acids donate protons (H⁺), which causes blue litmus to change colour.";
              verdict := "ACID CONFIRMED";
              rcolor := "#f87171" |}
    else if is_str (type c) "base" && is_str reactionType "red_litmus" then
      Some {| headline := "Base Detected!";
              body := "The Red Litmus paper turned Blue because " +++ label c +++ " ("
                      +++ formula c
                      +++ ") is a base. Bases accept protons (OH⁻), which causes red litmus to change colour.";
              verdict := "BASE CONFIRMED";
              rcolor := "#38bdf8" |}
    else
      let typeLabel := if is_str (type c) "acid" then "an acid" else "a base" in
      Some {| headline := "No Change — Wrong Litmus";
              body := label c +++ " (" +++ formula c +++ ") is " +++ typeLabel
                      +++ ", but this test used " +++ paperColor
                      +++ " Litmus. To observe a colour change, use "
                      +++ (if is_str (type c) "acid" then "Blue" else "Red")
                      +++ " Litmus with this substance.";
              verdict := "NO CHANGE";
              rcolor := "#fbbf24" |}
  end.

(** ** The session state

    Everything the handlers of [Lab] read or write, in four parts: the
    [useRef] cells, the [useState] cells, the browser objects behind them
    (the one [WebSocket], the two intervals, the camera, requests that are
    still awaited) and the log of what the component has sent out. *)

Inductive status : Type := connecting | live | error.

Inductive ready_state : Type := CONNECTING | OPEN | CLOSING | CLOSED.

Inductive timer : Type := PollTimer | FrameTimer.

(** The JSON payloads of [wsSend] and of [ws.send] in [ws.onopen]. *)
Inductive command : Type :=
| set_reaction (reaction_type : string)
| set_chemical (chemical_id : string).

(** What leaves the component.  Paths of [http_get] and [http_post] are the
    ones handed to the axios instance of [api.js], whose base is [/api];
    the beacon of the unload handler carries its full path. *)
Inductive output : Type :=
| ws_send_text (c : command)
| ws_send_binary
| ws_close
| track_stop
| http_get (path : string)
| http_post (path : string)
| send_beacon (path : string)
| navigate (path : string)
| console_error.

Record refs : Type := Refs {
  stopCalled      : bool;
  pollRef         : option timer;
  wsRef           : bool;            (* [true]: holds the socket *)
  streamRef       : bool;            (* [true]: holds the media stream *)
  wsReady         : bool;
  frameTimerRef   : option timer;
  sendingRef      : bool;
  reactionTypeRef : option string;
  activeChemRef   : option chemical
}.

Record hooks : Type := Hooks {
  activeId     : option string;
  activeChem   : option chemical;
  loadingChem  : option string;
  revealData   : option reveal;
  reactionType : option string;
  wsStatus     : status
}.

Record browser : Type := Browser {
  socket         : option ready_state; (* [ws.readyState], once constructed *)
  pollTimer      : bool;               (* the 1000 ms interval is scheduled *)
  frameTimer     : bool;               (* the 66 ms interval is scheduled *)
  camera         : bool;               (* the stream's tracks are live *)
  encoding       : nat;                (* [toBlob] calls not yet called back *)
  buffering      : nat;                (* [arrayBuffer()] promises pending *)
  unloadListener : bool;
  statusPending  : nat;                (* [GET status/] requests awaited *)
  selectPending  : list chemical;      (* [POST set-chemical/] awaited *)
  currentPending : bool;               (* [GET current/] awaited *)
  starting       : bool;               (* [startPipeline] awaits the camera *)
  backPending    : bool;               (* [handleBack] awaits its POST *)
  mounted        : bool
}.

Record session : Type := Session {
  ref   : refs;
  state : hooks;     (* current values of the [useState] cells *)
  view  : hooks;     (* the values the last render closed over *)
  dom   : browser;
  out   : list output
}.

Definition upd_ref (f : refs -> refs) (s : session) : session :=
  {| ref := f (ref s); state := state s; view := view s; dom := dom s; out := out s |}.

Definition upd_state (f : hooks -> hooks) (s : session) : session :=
  {| ref := ref s; state := f (state s); view := view s; dom := dom s; out := out s |}.

Definition upd_dom (f : browser -> browser) (s : session) : session :=
  {| ref := ref s; state := state s; view := view s; dom := f (dom s); out := out s |}.

Definition with_view (h : hooks) (s : session) : session :=
  {| ref := ref s; state := state s; view := h; dom := dom s; out := out s |}.

Definition emit (o : output) (s : session) : session :=
  {| ref := ref s; state := state s; view := view s; dom := dom s; out := out s ++ [o] |}.

(** *** Assignments to [x.current] *)

Definition put_stopCalled (v : bool) : session -> session :=
  upd_ref (fun r => Refs v (pollRef r) (wsRef r) (streamRef r) (wsReady r)
    (frameTimerRef r) (sendingRef r) (reactionTypeRef r) (activeChemRef r)).

Definition put_wsRef (v : bool) : session -> session :=
  upd_ref (fun r => Refs (stopCalled r) (pollRef r) v (streamRef r) (wsReady r)
    (frameTimerRef r) (sendingRef r) (reactionTypeRef r) (activeChemRef r)).

Definition put_streamRef (v : bool) : session -> session :=
  upd_ref (fun r => Refs (stopCalled r) (pollRef r) (wsRef r) v (wsReady r)
    (frameTimerRef r) (sendingRef r) (reactionTypeRef r) (activeChemRef r)).

Definition put_wsReady (v : bool) : session -> session :=
  upd_ref (fun r => Refs (stopCalled r) (pollRef r) (wsRef r) (streamRef r) v
    (frameTimerRef r) (sendingRef r) (reactionTypeRef r) (activeChemRef r)).

Definition put_frameTimerRef (v : option timer) : session -> session :=
  upd_ref (fun r => Refs (stopCalled r) (pollRef r) (wsRef r) (streamRef r) (wsReady r)
    v (sendingRef r) (reactionTypeRef r) (activeChemRef r)).

Definition put_sendingRef (v : bool) : session -> session :=
  upd_ref (fun r => Refs (stopCalled r) (pollRef r) (wsRef r) (streamRef r) (wsReady r)
    (frameTimerRef r) v (reactionTypeRef r) (activeChemRef r)).

Definition put_reactionTypeRef (v : option string) : session -> session :=
  upd_ref (fun r => Refs (stopCalled r) (pollRef r) (wsRef r) (streamRef r) (wsReady r)
    (frameTimerRef r) (sendingRef r) v (activeChemRef r)).

Definition put_activeChemRef (v : option chemical) : session -> session :=
  upd_ref (fun r => Refs (stopCalled r) (pollRef r) (wsRef r) (streamRef r) (wsReady r)
    (frameTimerRef r) (sendingRef r) (reactionTypeRef r) v).

(** *** The [useState] setters *)

Definition setActiveId (v : option string) : session -> session :=
  upd_state (fun h => Hooks v (activeChem h) (loadingChem h) (revealData h)
    (reactionType h) (wsStatus h)).

Definition setActiveChem (v : option chemical) : session -> session :=
  upd_state (fun h => Hooks (activeId h) v (loadingChem h) (revealData h)
    (reactionType h) (wsStatus h)).

Definition setLoadingChem (v : option string) : session -> session :=
  upd_state (fun h => Hooks (activeId h) (activeChem h) v (revealData h)
    (reactionType h) (wsStatus h)).

Definition setRevealData (v : option reveal) : session -> session :=
  upd_state (fun h => Hooks (activeId h) (activeChem h) (loadingChem h) v
    (reactionType h) (wsStatus h)).

Definition setReactionType (v : option string) : session -> session :=
  upd_state (fun h => Hooks (activeId h) (activeChem h) (loadingChem h) (revealData h)
    v (wsStatus h)).

Definition setWsStatus (v : status) : session -> session :=
  upd_state (fun h => Hooks (activeId h) (activeChem h) (loadingChem h) (revealData h)
    (reactionType h) v).

(** *** Browser objects *)

Definition with_socket (v : option ready_state) : session -> session :=
  upd_dom (fun b => Browser v (pollTimer b) (frameTimer b) (camera b) (encoding b)
    (buffering b) (unloadListener b) (statusPending b) (selectPending b)
    (currentPending b) (starting b) (backPending b) (mounted b)).

Definition with_pollTimer (v : bool) : session -> session :=
  upd_dom (fun b => Browser (socket b) v (frameTimer b) (camera b) (encoding b)
    (buffering b) (unloadListener b) (statusPending b) (selectPending b)
    (currentPending b) (starting b) (backPending b) (mounted b)).

Definition with_frameTimer (v : bool) : session -> session :=
  upd_dom (fun b => Browser (socket b) (pollTimer b) v (camera b) (encoding b)
    (buffering b) (unloadListener b) (statusPending b) (selectPending b)
    (currentPending b) (starting b) (backPending b) (mounted b)).

Definition with_camera (v : bool) : session -> session :=
  upd_dom (fun b => Browser (socket b) (pollTimer b) (frameTimer b) v (encoding b)
    (buffering b) (unloadListener b) (statusPending b) (selectPending b)
    (currentPending b) (starting b) (backPending b) (mounted b)).

Definition with_encoding (v : nat) : session -> session :=
  upd_dom (fun b => Browser (socket b) (pollTimer b) (frameTimer b) (camera b) v
    (buffering b) (unloadListener b) (statusPending b) (selectPending b)
    (currentPending b) (starting b) (backPending b) (mounted b)).

Definition with_buffering (v : nat) : session -> session :=
  upd_dom (fun b => Browser (socket b) (pollTimer b) (frameTimer b) (camera b) (encoding b)
    v (unloadListener b) (statusPending b) (selectPending b)
    (currentPending b) (starting b) (backPending b) (mounted b)).

Definition with_unloadListener (v : bool) : session -> session :=
  upd_dom (fun b => Browser (socket b) (pollTimer b) (frameTimer b) (camera b) (encoding b)
    (buffering b) v (statusPending b) (selectPending b)
    (currentPending b) (starting b) (backPending b) (mounted b)).

Definition with_statusPending (v : nat) : session -> session :=
  upd_dom (fun b => Browser (socket b) (pollTimer b) (frameTimer b) (camera b) (encoding b)
    (buffering b) (unloadListener b) v (selectPending b)
    (currentPending b) (starting b) (backPending b) (mounted b)).

Definition with_selectPending (v : list chemical) : session -> session :=
  upd_dom (fun b => Browser (socket b) (pollTimer b) (frameTimer b) (camera b) (encoding b)
    (buffering b) (unloadListener b) (statusPending b) v
    (currentPending b) (starting b) (backPending b) (mounted b)).

Definition with_currentPending (v : bool) : session -> session :=
  upd_dom (fun b => Browser (socket b) (pollTimer b) (frameTimer b) (camera b) (encoding b)
    (buffering b) (unloadListener b) (statusPending b) (selectPending b)
    v (starting b) (backPending b) (mounted b)).

Definition with_starting (v : bool) : session -> session :=
  upd_dom (fun b => Browser (socket b) (pollTimer b) (frameTimer b) (camera b) (encoding b)
    (buffering b) (unloadListener b) (statusPending b) (selectPending b)
    (currentPending b) v (backPending b) (mounted b)).

Definition with_backPending (v : bool) : session -> session :=
  upd_dom (fun b => Browser (socket b) (pollTimer b) (frameTimer b) (camera b) (encoding b)
    (buffering b) (unloadListener b) (statusPending b) (selectPending b)
    (currentPending b) (starting b) v (mounted b)).

Definition with_mounted (v : bool) : session -> session :=
  upd_dom (fun b => Browser (socket b) (pollTimer b) (frameTimer b) (camera b) (encoding b)
    (buffering b) (unloadListener b) (statusPending b) (selectPending b)
    (currentPending b) (starting b) (backPending b) v).

(** ** Browser primitives *)

Definition is_open (s : session) : bool :=
  match socket (dom s) with
  | Some OPEN => true
  | _ => false
  end.

(** [ws.send(data)] on the socket of [startPipeline]: data handed to a socket
    that is closing or closed is discarded by the browser.  No call site can
    reach it while the socket is still connecting. *)
Definition ws_send (o : output) (s : session) : session :=
  if is_open s then emit o s else s.

(** [ws.close()]. *)
Definition ws_close_call (s : session) : session :=
  let s := emit ws_close s in
  match socket (dom s) with
  | Some CONNECTING | Some OPEN => with_socket (Some CLOSING) s
  | _ => s
  end.

Definition clearInterval (t : option timer) (s : session) : session :=
  match t with
  | Some PollTimer => with_pollTimer false s
  | Some FrameTimer => with_frameTimer false s
  | None => s
  end.

(** ** The handlers of [Lab] *)

(** [wsSend]: reads the socket through [wsRef]. *)
Definition wsSend (payload : command) (s : session) : session :=
  if wsRef (ref s) && is_open s then emit (ws_send_text payload) s else s.

(** How the awaited part of [startPipeline] ends: [getUserMedia] rejects,
    [video.play()] rejects after the stream was stored, or both resolve.
    Once the component has unmounted, [videoRef.current] is null: the
    assignment to [video.srcObject] throws right after the stream has been
    stored, the [catch] block runs and no socket is built. *)
Inductive startup : Type := camera_failed | play_failed | started.

Definition startPipeline_resume (r : startup) (s : session) : session :=
  match r with
  | camera_failed => setWsStatus error (emit console_error s)
  | play_failed =>
      let s := with_camera true (put_streamRef true s) in
      setWsStatus error (emit console_error s)
  | started =>
      let s := with_camera true (put_streamRef true s) in
      if mounted (dom s)
      then put_wsRef true (with_socket (Some CONNECTING) s)
      else setWsStatus error (emit console_error s)
  end.

(** [sendFrame], up to the call of [off.toBlob]. *)
Definition sendFrame (s : session) : session :=
  if negb (wsReady (ref s)) || negb (is_open s) || sendingRef (ref s) then s
  else
    let s := put_sendingRef true s in
    with_encoding (S (encoding (dom s))) s.

(** The callback handed to [off.toBlob]; [blob = false] is a null blob. *)
Definition toBlob_callback (blob : bool) (s : session) : session :=
  if blob then with_buffering (S (buffering (dom s))) s
  else put_sendingRef false s.

(** The continuation of [blob.arrayBuffer()]. *)
Definition arrayBuffer_then (s : session) : session :=
  let s := if is_open s then ws_send ws_send_binary s else s in
  put_sendingRef false s.

Definition onopen (s : session) : session :=
  let s := put_wsReady true s in
  let s := setWsStatus live s in
  let rt := reactionTypeRef (ref s) in
  let s := match rt with
           | Some (String a r) => ws_send (ws_send_text (set_reaction (String a r))) s
           | _ => s
           end in
  let ac := activeChemRef (ref s) in
  let s := match ac with
           | Some c => ws_send (ws_send_text (set_chemical (id c))) s
           | None => s
           end in
  with_frameTimer true (put_frameTimerRef (Some FrameTimer) s).

(** An inbound text frame after [JSON.parse]. *)
Record message : Type := Message {
  msg_type          : option string;
  msg_chemical      : option chemical;
  msg_reaction_type : option string
}.

(** [evt.data]: a string, with the result of [JSON.parse] ([None] when it
    throws or yields no object), or a binary frame. *)
Inductive ws_data : Type :=
| text (parsed : option message)
| binary.

Definition onmessage (d : ws_data) (s : session) : session :=
  match d with
  | text (Some msg) =>
      if is_str (msg_type msg) "reaction_complete" then
        let s := clearInterval (pollRef (ref s)) s in
        let chemical := or_obj (msg_chemical msg) (activeChemRef (ref s)) in
        let rt := or_else (msg_reaction_type msg) (reactionTypeRef (ref s)) in
        setRevealData (buildRevealMessage chemical rt) s
      else s
  | text None => s
  | binary => s        (* drawn on the canvas *)
  end.

Definition onerror (s : session) : session := setWsStatus error s.

Definition onclose (s : session) : session :=
  setWsStatus error (put_wsReady false s).

Definition stopPipeline (s : session) : session :=
  let s := put_wsReady false s in
  let s := match frameTimerRef (ref s) with
           | Some t => put_frameTimerRef None (clearInterval (Some t) s)
           | None => s
           end in
  let s := if wsRef (ref s) then put_wsRef false (ws_close_call s) else s in
  if streamRef (ref s)
  then put_streamRef false (with_camera false (emit track_stop s))
  else s.

(** The [then] callback of the [GET current/] fetch of the mount effect;
    the catalog fetch next to it only fills the bubble row. *)
Definition current_then (active_reaction : option string) (s : session) : session :=
  setReactionType active_reaction s.

(** The comparison of a dependency with its value at the previous render. *)
Definition same_dep (a b : option string) : bool :=
  match a, b with
  | Some x, Some y => String.eqb x y
  | None, None => true
  | _, _ => false
  end.

(** A render followed by its effects, in the order they are declared: the
    two ref mirrors, then the [set_reaction] sync, which runs only when its
    dependency [reactionType] differs from the one of the previous render.
    The mirrors assign what the render saw, so running them at every render
    is the same as running them when their dependency changes. *)
Definition render (s : session) : session :=
  let h := state s in
  let prev := view s in
  let s := put_reactionTypeRef (reactionType h) s in
  let s := put_activeChemRef (activeChem h) s in
  let s := if same_dep (reactionType h) (reactionType prev) then s
           else match reactionType h with
                | Some (String a r) => wsSend (set_reaction (String a r)) s
                | _ => s
                end in
  with_view h s.

(** The body of [GET /reactions/status/]. *)
Record status_reply : Type := StatusReply {
  complete           : bool;
  data_chemical      : option chemical;
  data_reaction_type : option string
}.

(** The values of the [useState] cells at the first render. *)
Definition first_render : hooks :=
  {| activeId := None; activeChem := None; loadingChem := None;
     revealData := None; reactionType := None; wsStatus := connecting |}.

(** The interval callback of the polling effect, up to its [await].  The
    effect has no dependencies, so the [revealData] it tests is the one of
    the render that mounted the component. *)
Definition poll_tick (s : session) : session :=
  match revealData first_render with
  | Some _ => clearInterval (pollRef (ref s)) s
  | None =>
      with_statusPending (S (statusPending (dom s)))
        (emit (http_get "/reactions/status/") s)
  end.

(** The same callback after the [await]: [None] is a failed request. *)
Definition poll_resume (r : option status_reply) (s : session) : session :=
  match r with
  | Some data =>
      if complete data then
        let s := clearInterval (pollRef (ref s)) s in
        setRevealData
          (buildRevealMessage
             (or_obj (data_chemical data) (activeChemRef (ref s)))
             (or_else (data_reaction_type data) (reactionTypeRef (ref s)))) s
      else s
  | None => s
  end.

(** [handleSelectChemical], up to its [await]; [loadingChem] and
    [revealData] are those of the render that bound the click handler. *)
Definition handleSelectChemical (chem : chemical) (s : session) : session :=
  if truthy (loadingChem (view s)) ||
     match revealData (view s) with Some _ => true | None => false end
  then s
  else
    let s := setLoadingChem (Some (id chem)) s in
    let s := setRevealData None s in
    let s := emit (http_post "/reactions/set-chemical/") s in
    with_selectPending (selectPending (dom s) ++ [chem]) s.

(** [handleSelectChemical] after the [await]: [ok = false] is a rejected
    POST, handled by [catch]; [finally] runs on both paths. *)
Definition handleSelectChemical_resume (chem : chemical) (ok : bool) (s : session)
  : session :=
  let s := if ok then
             let s := setActiveId (Some (id chem)) s in
             let s := setActiveChem (Some chem) s in
             wsSend (set_chemical (id chem)) s
           else emit console_error s in
  setLoadingChem None s.

(** [handleBack], up to its [await]. *)
Definition handleBack (s : session) : session :=
  if stopCalled (ref s) then s
  else
    let s := put_stopCalled true s in
    let s := clearInterval (pollRef (ref s)) s in
    let s := stopPipeline s in
    with_backPending true (emit (http_post "/reactions/stop/") s).

(** [handleBack] after the [await]: the [finally] block. *)
Definition handleBack_resume (s : session) : session :=
  emit (navigate "/dashboard") s.

(** The [beforeunload] listener. *)
Definition onUnload (s : session) : session :=
  emit (send_beacon "/api/reactions/stop/") s.

(** The cleanup of the last effect. *)
Definition teardown_cleanup (s : session) : session :=
  let s := with_unloadListener false s in
  if stopCalled (ref s) then s
  else
    let s := put_stopCalled true s in
    let s := clearInterval (pollRef (ref s)) s in
    let s := stopPipeline s in
    emit (http_post "/reactions/stop/") s.

(** Unmounting runs the cleanups of the mount effect, of the polling effect
    and of the last effect. *)
Definition unmount (s : session) : session :=
  let s := stopPipeline s in
  let s := clearInterval (pollRef (ref s)) s in
  let s := teardown_cleanup s in
  with_mounted false s.

(** ** The event loop

    One event is one task of the browser's event loop: it runs one handler,
    or one continuation of an [async] handler, to its next [await].  The
    browser delivers an event only when its source exists (a scheduled
    interval, a pending request, a registered listener, a socket in the
    right state); an event that cannot be delivered leaves the session as it
    is. *)

Inductive event : Type :=
| PipelineUp (r : startup)               (* the awaits of [startPipeline] settle *)
| WsOpen
| WsMessage (d : ws_data)
| WsError
| WsClose
| CurrentLoaded (r : option (option string)) (* [GET current/] settles *)
| Render
| FrameTick                              (* the 66 ms interval fires *)
| BlobReady (blob : bool)                (* [toBlob] calls back *)
| BufferReady                            (* [arrayBuffer()] resolves *)
| BufferFailed                           (* [arrayBuffer()] rejects *)
| PollTick                               (* the 1000 ms interval fires *)
| PollResponse (r : option status_reply) (* [GET status/] settles *)
| ClickChemical (chem : chemical)
| SelectResponse (ok : bool)             (* [POST set-chemical/] settles *)
| ClickBack
| StopResponse                           (* the POST of [handleBack] settles *)
| BeforeUnload
| Unmount.

Definition step (s : session) (e : event) : session :=
  match e with
  | PipelineUp r =>
      if starting (dom s) then startPipeline_resume r (with_starting false s) else s
  | WsOpen =>
      match socket (dom s) with
      | Some CONNECTING => onopen (with_socket (Some OPEN) s)
      | _ => s
      end
  | WsMessage d => if is_open s then onmessage d s else s
  | WsError =>
      (* the browser closes the socket, then fires [error] and [close] *)
      match socket (dom s) with
      | Some CLOSED | None => s
      | Some _ => onclose (onerror (with_socket (Some CLOSED) s))
      end
  | WsClose =>
      match socket (dom s) with
      | Some CLOSED | None => s
      | Some _ => onclose (with_socket (Some CLOSED) s)
      end
  | CurrentLoaded r =>
      if currentPending (dom s) then
        let s := with_currentPending false s in
        match r with
        | Some active_reaction => current_then active_reaction s
        | None => s
        end
      else s
  | Render => if mounted (dom s) then render s else s
  | FrameTick => if frameTimer (dom s) then sendFrame s else s
  | BlobReady blob =>
      match encoding (dom s) with
      | S n => toBlob_callback blob (with_encoding n s)
      | O => s
      end
  | BufferReady =>
      match buffering (dom s) with
      | S n => arrayBuffer_then (with_buffering n s)
      | O => s
      end
  | BufferFailed =>
      match buffering (dom s) with
      | S n => with_buffering n s
      | O => s
      end
  | PollTick => if pollTimer (dom s) then poll_tick s else s
  | PollResponse r =>
      match statusPending (dom s) with
      | S n => poll_resume r (with_statusPending n s)
      | O => s
      end
  | ClickChemical chem => if mounted (dom s) then handleSelectChemical chem s else s
  | SelectResponse ok =>
      match selectPending (dom s) with
      | chem :: rest => handleSelectChemical_resume chem ok (with_selectPending rest s)
      | [] => s
      end
  | ClickBack => handleBack s
  | StopResponse =>
      if backPending (dom s) then handleBack_resume (with_backPending false s) else s
  | BeforeUnload => if unloadListener (dom s) then onUnload s else s
  | Unmount => if mounted (dom s) then unmount s else s
  end.

Definition run (s : session) (es : list event) : session :=
  fold_left step es s.

(** The session right after the component has mounted: the first render is
    done and every effect has run once, so both fetches of the mount effect
    are under way, [startPipeline] awaits the camera, the poll interval is
    scheduled and the unload listener is registered. *)
Definition mount : session :=
  {| ref := {| stopCalled := false; pollRef := Some PollTimer; wsRef := false;
               streamRef := false; wsReady := false; frameTimerRef := None;
               sendingRef := false; reactionTypeRef := None;
               activeChemRef := None |};
     state := first_render;
     view := first_render;
     dom := {| socket := None; pollTimer := true; frameTimer := false;
               camera := false; encoding := 0; buffering := 0;
               unloadListener := true; statusPending := 0; selectPending := [];
               currentPending := true; starting := true; backPending := false;
               mounted := true |};
     out := [http_get "/reactions/chemicals/"; http_get "/reactions/current/"] |}.

(** ** What is displayed *)

Inductive display : Type := idle | hinting (h : hint) | revealed (r : reveal).

(** [reactionHint] as the render derives it. *)
Definition reactionHint (h : hooks) : option hint :=
  match revealData h, activeChem h with
  | None, Some c =>
      if truthy (reactionType h) then getReactionHint (type c) (reactionType h)
      else None
  | _, _ => None
  end.

(** Which of the hint panel and the reveal banner the JSX shows. *)
Definition displayed (h : hooks) : display :=
  match revealData h with
  | Some r => revealed r
  | None =>
      match reactionHint h with
      | Some x => hinting x
      | None => idle
      end
  end.

(** ** Observations on the output log *)

Definition is_stop_notification (o : output) : bool :=
  match o with
  | http_post p => String.eqb p "/reactions/stop/"
  | send_beacon p => String.eqb p "/api/reactions/stop/"
  | _ => false
  end.

Definition is_stop_post (o : output) : bool :=
  match o with
  | http_post p => String.eqb p "/reactions/stop/"
  | _ => false
  end.

Definition is_track_stop (o : output) : bool :=
  match o with track_stop => true | _ => false end.

Definition is_frame (o : output) : bool :=
  match o with ws_send_binary => true | _ => false end.

Definition is_status_get (o : output) : bool :=
  match o with
  | http_get p => String.eqb p "/reactions/status/"
  | _ => false
  end.

Definition is_tick (e : event) : bool :=
  match e with FrameTick => true | _ => false end.

Definition count {A : Type} (p : A -> bool) (l : list A) : nat :=
  List.length (filter p l).

(** The text messages among the outputs, in the order they were sent. *)
Fixpoint texts (l : list output) : list command :=
  match l with
  | [] => []
  | ws_send_text c :: l' => c :: texts l'
  | _ :: l' => texts l'
  end.

(** ** Vocabulary of the statements *)

Definition categories : list string := ["acid"; "base"; "neutral"].
Definition indicators : list string := ["red_litmus"; "blue_litmus"].

(** Encode-and-send jobs started by [sendFrame] and not yet finished. *)
Definition in_flight (s : session) : nat :=
  encoding (dom s) + buffering (dom s).

(** The setup commands for a known indicator mode and a known selection,
    indicator first. *)
Definition replay (rt : option string) (ac : option chemical) : list command :=
  match rt with
  | Some (String a r) => [set_reaction (String a r)]
  | _ => []
  end ++
  match ac with
  | Some c => [set_chemical (id c)]
  | None => []
  end.

(** The last render has seen the current indicator mode and selection. *)
Definition rendered (s : session) : Prop :=
  reactionType (view s) = reactionType (state s) /\
  activeChem (view s) = activeChem (state s).

(** The transport is still connecting: the socket exists and is not open. *)
Definition is_connecting (s : session) : bool :=
  match socket (dom s) with
  | Some CONNECTING => true
  | _ => false
  end.

(** From [s] to [s'] the poll handle is kept, and a cancelled poll stays
    cancelled and asks nothing more. *)
Definition poll_quiet (s s' : session) : Prop :=
  pollRef (ref s') = pollRef (ref s) /\
  (pollTimer (dom s) = false ->
   pollTimer (dom s') = false /\
   count is_status_get (out s') = count is_status_get (out s)).

(** What the frame sender works on: its busy flag, its jobs under way and
    the frames it has sent. *)
Definition frame_view (s : session) : bool * nat * nat * nat :=
  (sendingRef (ref s), encoding (dom s), buffering (dom s),
   count is_frame (out s)).

Definition same_frames (s s' : session) : Prop := frame_view s' = frame_view s.

(** A job is under way only while the busy flag is set. *)
Definition busy_covers (s : session) : Prop :=
  in_flight s <= (if sendingRef (ref s) then 1 else 0).

(** Only the interval callback and the two continuations of [sendFrame]
    touch the frame sender. *)
Definition frame_event (e : event) : bool :=
  match e with
  | FrameTick | BlobReady _ | BufferReady | BufferFailed => true
  | _ => false
  end.

(** No socket yet, or one that has not opened. *)
Definition not_yet_open (s : session) : bool :=
  match socket (dom s) with
  | None | Some CONNECTING => true
  | _ => false
  end.

(** What holds of every session before the socket opens: the socket is
    constructed by [startPipeline] only, nothing was sent over it, and the
    two refs mirror the last render. *)
Definition replay_ready (s : session) : Prop :=
  (starting (dom s) = true -> socket (dom s) = None) /\
  (not_yet_open s = true -> texts (out s) = []) /\
  reactionTypeRef (ref s) = reactionType (view s) /\
  activeChemRef (ref s) = activeChem (view s).

Definition keeps (I : session -> Prop) (s s' : session) : Prop := I s -> I s'.

(** The socket exists and has not been closed yet: connecting, open (the
    transport is live) or closing. *)
Definition transport_up (s : session) : bool :=
  match socket (dom s) with
  | Some CONNECTING | Some OPEN | Some CLOSING => true
  | _ => false
  end.

(** The socket is closed, the status shows the error, and [startPipeline],
    the only place that constructs a socket, has run. *)
Definition closed_for_good (s : session) : Prop :=
  socket (dom s) = Some CLOSED /\
  wsStatus (state s) = error /\
  starting (dom s) = false.

(** What teardown works on: the one-shot flag, the stream handle, and the
    stop requests and camera releases in the log. *)
Definition teardown_view (s : session) : bool * bool * bool * nat * nat :=
  (stopCalled (ref s), streamRef (ref s), starting (dom s),
   count is_stop_post (out s), count is_track_stop (out s)).

Definition same_teardown (s s' : session) : Prop :=
  teardown_view s' = teardown_view s.

(** The axios stop request is sent under the one-shot flag only, and the
    camera is released only while the stream handle is held. *)
Definition torn_once (s : session) : Prop :=
  count is_stop_post (out s) <= Nat.b2n (stopCalled (ref s)) /\
  count is_track_stop (out s) + Nat.b2n (streamRef (ref s))
    + Nat.b2n (starting (dom s)) <= 1.

(** The ticks of the frame interval in a run: the [FrameTick] events that
    find the interval scheduled. *)
Fixpoint ticks (s : session) (es : list event) : nat :=
  match es with
  | [] => 0
  | e :: es' =>
      (if is_tick e && frameTimer (dom s) then 1 else 0) + ticks (step s e) es'
  end.

(** Two catalog entries and two completion reports used in the examples. *)
Definition HCl : chemical :=
  {| id := "HCl"; label := "Hydrochloric Acid"; formula := "HCl";
     type := Some "acid" |}.

Definition NaOH : chemical :=
  {| id := "NaOH"; label := "Sodium Hydroxide"; formula := "NaOH";
     type := Some "base" |}.

Definition complete_push (c : option chemical) (rt : option string) : event :=
  WsMessage (text (Some {| msg_type := Some "reaction_complete";
                           msg_chemical := c; msg_reaction_type := rt |})).

Definition complete_poll (c : option chemical) (rt : option string) : event :=
  PollResponse (Some {| complete := true; data_chemical := c;
                        data_reaction_type := rt |}).

(** ** Further vocabulary *)

(** The same catalog entry under another category. *)
Definition retype (c : chemical) (t : option string) : chemical :=
  {| id := id c; label := label c; formula := formula c; type := t |}.

(** A category that is none of the three the catalog knows. *)
Definition unknown_type (t : option string) : bool :=
  negb (is_str t "neutral") && negb (is_str t "acid") && negb (is_str t "base").

(** [readyState] after [close()]. *)
Definition closing (r : option ready_state) : option ready_state :=
  match r with
  | Some CONNECTING | Some OPEN => Some CLOSING
  | x => x
  end.

(** [stopPipeline] in one piece: what each cell holds when it returns. *)
Definition stopPipeline_result (s : session) : session :=
  {| ref := {| stopCalled := stopCalled (ref s);
               pollRef := pollRef (ref s);
               wsRef := false;
               streamRef := false;
               wsReady := false;
               frameTimerRef := None;
               sendingRef := sendingRef (ref s);
               reactionTypeRef := reactionTypeRef (ref s);
               activeChemRef := activeChemRef (ref s) |};
     state := state s;
     view := view s;
     dom := {| socket := if wsRef (ref s) then closing (socket (dom s))
                         else socket (dom s);
               pollTimer := match frameTimerRef (ref s) with
                            | Some PollTimer => false
                            | _ => pollTimer (dom s)
                            end;
               frameTimer := match frameTimerRef (ref s) with
                             | Some FrameTimer => false
                             | _ => frameTimer (dom s)
                             end;
               camera := if streamRef (ref s) then false else camera (dom s);
               encoding := encoding (dom s);
               buffering := buffering (dom s);
               unloadListener := unloadListener (dom s);
               statusPending := statusPending (dom s);
               selectPending := selectPending (dom s);
               currentPending := currentPending (dom s);
               starting := starting (dom s);
               backPending := backPending (dom s);
               mounted := mounted (dom s) |};
     out := out s ++ (if wsRef (ref s) then [ws_close] else [])
                  ++ (if streamRef (ref s) then [track_stop] else []) |}.

(** The socket is connecting or open. *)
Definition socket_alive (s : session) : bool :=
  match socket (dom s) with
  | Some CONNECTING | Some OPEN => true
  | _ => false
  end.

(** Every browser object that is in use is reachable from the ref that
    [stopPipeline] and the cleanups read. *)
Definition wired (s : session) : Prop :=
  pollRef (ref s) = Some PollTimer /\
  frameTimerRef (ref s) <> Some PollTimer /\
  (frameTimer (dom s) = true -> frameTimerRef (ref s) = Some FrameTimer) /\
  (camera (dom s) = true -> streamRef (ref s) = true) /\
  (socket_alive s = true -> wsRef (ref s) = true) /\
  (wsReady (ref s) = true -> socket (dom s) = Some OPEN) /\
  (mounted (dom s) = false -> stopCalled (ref s) = true) /\
  (starting (dom s) = true ->
   socket (dom s) = None /\ camera (dom s) = false /\ frameTimer (dom s) = false).

(** The label and the colour of the status row. *)
Definition statusLabel (w : status) : string :=
  match w with
  | live => "Live Stream"
  | error => "Connection Error"
  | connecting => "Connecting…"
  end.

Definition statusColor (w : status) : string :=
  match w with
  | live => "var(--accent-green)"
  | error => "#f87171"
  | connecting => "#fbbf24"
  end.

(** What the status cell says is what the socket is. *)
Definition status_truthful (s : session) : Prop :=
  (starting (dom s) = true -> socket (dom s) = None) /\
  (socket (dom s) = Some OPEN -> wsStatus (state s) = live) /\
  (wsStatus (state s) = live ->
   socket (dom s) = Some OPEN \/ socket (dom s) = Some CLOSING) /\
  (socket (dom s) = Some CLOSED -> wsStatus (state s) = error).

(** [startPipeline] has run and the socket, if any, is not connecting or
    open. *)
Definition shut (s : session) : Prop :=
  starting (dom s) = false /\ socket_alive s = false.

(** From a shut session on, the session stays shut and sends nothing more
    over the socket. *)
Definition shut_quiet (s s' : session) : Prop :=
  shut s ->
  shut s' /\
  count is_frame (out s') = count is_frame (out s) /\
  texts (out s') = texts (out s).

(** Camera, both intervals and socket are all let go. *)
Definition released (s : session) : Prop :=
  camera (dom s) = false /\ frameTimer (dom s) = false /\
  pollTimer (dom s) = false /\ shut s.

(** The camera is on and no path is left that would turn it off. *)
Definition leaked (s : session) : Prop :=
  camera (dom s) = true /\ mounted (dom s) = false /\
  stopCalled (ref s) = true /\ starting (dom s) = false.

(** From a leaked session on, the leak stays and no track is stopped. *)
Definition leak_stays (s s' : session) : Prop :=
  leaked s ->
  leaked s' /\ count is_track_stop (out s') = count is_track_stop (out s).

Definition is_set_reaction (o : output) : bool :=
  match o with
  | ws_send_text (set_reaction _) => true
  | _ => false
  end.

(** What the indicator command depends on. *)
Definition ind_view (s : session)
  : bool * option string * option string * option string * nat :=
  (currentPending (dom s), reactionType (state s), reactionType (view s),
   reactionTypeRef (ref s), count is_set_reaction (out s)).

Definition same_ind (s s' : session) : Prop := ind_view s' = ind_view s.

(** Only these events touch it. *)
Definition ind_event (e : event) : bool :=
  match e with
  | WsOpen | CurrentLoaded _ | Render => true
  | _ => false
  end.

(** What keeps the indicator command from being repeated: the indicator
    mode is set once, by the fetch of the mount effect; the ref and the
    last render never run ahead of it; and a command that was sent was
    sent for the mode the last render has seen. *)
Definition indicator_once (s : session) : Prop :=
  (currentPending (dom s) = true -> reactionType (state s) = None) /\
  (reactionType (view s) = reactionType (state s) \/
   reactionType (view s) = None) /\
  reactionTypeRef (ref s) = reactionType (view s) /\
  count is_set_reaction (out s) <= 1 /\
  (count is_set_reaction (out s) = 1 ->
   reactionType (view s) = reactionType (state s) /\
   truthy (reactionType (view s)) = true).

(** The frame sender is wedged: the busy flag is set and no job is under
    way that could clear it. *)
Definition stalled (s : session) : Prop :=
  sendingRef (ref s) = true /\ in_flight s = 0.

(** The two reports of a finished reaction: the push over the socket and
    the answer of the poll. *)
Definition is_report (e : event) : bool :=
  match e with
  | WsMessage (text (Some msg)) => is_str (msg_type msg) "reaction_complete"
  | PollResponse (Some data) => complete data
  | _ => false
  end.

(** The two ways the user leaves the page from inside the application. *)
Definition is_exit (e : event) : bool :=
  match e with
  | ClickBack | Unmount => true
  | _ => false
  end.

(** No outcome is known, neither to the state nor to the last render. *)
Definition undecided (s : session) : Prop :=
  revealData (state s) = None /\ revealData (view s) = None.

(** The status poll is scheduled, under the handle the component holds. *)
Definition polling (s : session) : Prop :=
  pollTimer (dom s) = true /\ pollRef (ref s) = Some PollTimer.

(** The selection cells are in step: the id shown as loaded is the id of
    the selected entry, and the loading mark is up only while a POST of a
    selection is pending. *)
Definition selection_coherent (s : session) : Prop :=
  activeId (state s) = option_map id (activeChem (state s)) /\
  (selectPending (dom s) = [] -> loadingChem (state s) = None).

(** ** The selector-panel revision

    The first revision of [Lab.jsx] in the repository shows the stream as an
    image served by the backend and keeps only the chemical selector and the
    stop notification on the client. *)

Module Selector.

(** The accent colour computed by [s.chemBtn]. *)
Definition chemBtn_accent (t : option string) : string :=
  if is_str t "acid" then "#f87171"
  else if is_str t "base" then "#38bdf8"
  else "#a3a3a3".

(** The colour computed by [s.chemType]. *)
Definition chemType_color (t : option string) : string :=
  if is_str t "acid" then "#f87171"
  else if is_str t "base" then "#38bdf8"
  else "#a3a3a3".

(** The [useState] cells. *)
Record hooks : Type := Hooks {
  chemicals      : list chemical;
  activeChemical : option string;
  loadingChem    : option string
}.

(** A button of the selector panel: its React key, the two arguments it
    hands to [s.chemBtn], the chemical its click handler selects, its
    [disabled] attribute, its caption ([None] is the ellipsis) and the tag
    on its right with the colour of the tag. *)
Record button : Type := Button {
  key       : string;
  active    : bool;
  accent    : string;
  onClick   : chemical;
  disabled  : bool;
  caption   : option string;
  tag       : string;
  tag_color : string
}.

Inductive element : Type :=
| noChemHint
| groupLabel (heading : string)
| chem_button (b : button).

Definition group_button (h : hooks) (tag_text : string) (c : chemical) : element :=
  chem_button
    {| key := id c;
       active := is_str (activeChemical h) (id c);
       accent := chemBtn_accent (type c);
       onClick := c;
       disabled := is_str (loadingChem h) (id c);
       caption := if is_str (loadingChem h) (id c) then None else Some (id c);
       tag := tag_text;
       tag_color := chemType_color (type c) |}.

(** One [{xs.length > 0 && (...)}] block of the panel. *)
Definition group (h : hooks) (heading tag_text : string) (xs : list chemical)
  : list element :=
  match xs with
  | [] => []
  | _ :: _ => groupLabel heading :: map (group_button h tag_text) xs
  end.

(** The children of the panel body, in document order. *)
Definition panelBody (h : hooks) : list element :=
  let acids := filter (fun c => is_str (type c) "acid") (chemicals h) in
  let bases := filter (fun c => is_str (type c) "base") (chemicals h) in
  let neutrals := filter (fun c => is_str (type c) "neutral") (chemicals h) in
  match chemicals h with
  | [] => [noChemHint]
  | _ :: _ => []
  end ++
  group h "Acids" "acid" acids ++
  group h "Bases" "base" bases ++
  group h "Neutral" "neutral" neutrals.

Fixpoint buttons (l : list element) : list button :=
  match l with
  | [] => []
  | chem_button b :: l' => b :: buttons l'
  | _ :: l' => buttons l'
  end.

(** The component between two events: the state cells, the cells as the
    last render saw them, the one-shot flag, what is pending in the browser
    and what has been sent. *)
Record session : Type := Session {
  state          : hooks;
  view           : hooks;
  stopCalled     : bool;
  catalogPending : bool;
  selectPending  : list chemical;
  backPending    : bool;
  unloadListener : bool;
  mounted        : bool;
  out            : list output
}.

Definition emit (o : output) (s : session) : session :=
  {| state := state s; view := view s; stopCalled := stopCalled s;
     catalogPending := catalogPending s; selectPending := selectPending s;
     backPending := backPending s; unloadListener := unloadListener s;
     mounted := mounted s; out := out s ++ [o] |}.

Definition with_state (h : hooks) (s : session) : session :=
  {| state := h; view := view s; stopCalled := stopCalled s;
     catalogPending := catalogPending s; selectPending := selectPending s;
     backPending := backPending s; unloadListener := unloadListener s;
     mounted := mounted s; out := out s |}.

Definition setChemicals (l : list chemical) (s : session) : session :=
  with_state {| chemicals := l; activeChemical := activeChemical (state s);
                loadingChem := loadingChem (state s) |} s.

Definition setActiveChemical (a : option string) (s : session) : session :=
  with_state {| chemicals := chemicals (state s); activeChemical := a;
                loadingChem := loadingChem (state s) |} s.

Definition setLoadingChem (l : option string) (s : session) : session :=
  with_state {| chemicals := chemicals (state s);
                activeChemical := activeChemical (state s);
                loadingChem := l |} s.

Definition put_stopCalled (b : bool) (s : session) : session :=
  {| state := state s; view := view s; stopCalled := b;
     catalogPending := catalogPending s; selectPending := selectPending s;
     backPending := backPending s; unloadListener := unloadListener s;
     mounted := mounted s; out := out s |}.

Definition with_pending (c : bool) (sel : list chemical) (b : bool) (s : session)
  : session :=
  {| state := state s; view := view s; stopCalled := stopCalled s;
     catalogPending := c; selectPending := sel; backPending := b;
     unloadListener := unloadListener s; mounted := mounted s; out := out s |}.

(** [handleSelectChemical], up to its [await]; the [loadingChem] it tests
    is the one of the render that bound the click handler. *)
Definition handleSelectChemical (chem : chemical) (s : session) : session :=
  if truthy (loadingChem (view s)) then s
  else
    let s := setLoadingChem (Some (id chem)) s in
    let s := emit (http_post "/reactions/set-chemical/") s in
    with_pending (catalogPending s) (selectPending s ++ [chem]) (backPending s) s.

(** After the [await]: the [catch] block is empty. *)
Definition handleSelectChemical_resume (chem : chemical) (ok : bool) (s : session)
  : session :=
  let s := if ok then setActiveChemical (Some (id chem)) s else s in
  setLoadingChem None s.

Definition handleBack (s : session) : session :=
  if stopCalled s then s
  else
    let s := put_stopCalled true s in
    let s := emit (http_post "/reactions/stop/") s in
    with_pending (catalogPending s) (selectPending s) true s.

Definition onUnload (s : session) : session :=
  emit (send_beacon "http://localhost:8000/api/reactions/stop/") s.

(** The cleanup of the second effect, then the component is gone. *)
Definition unmount (s : session) : session :=
  let s := {| state := state s; view := view s; stopCalled := stopCalled s;
              catalogPending := catalogPending s;
              selectPending := selectPending s; backPending := backPending s;
              unloadListener := false; mounted := false; out := out s |} in
  if negb (stopCalled s)
  then emit (http_post "/reactions/stop/") (put_stopCalled true s)
  else s.

Inductive event : Type :=
| CatalogLoaded (r : option (list chemical))  (* [GET chemicals/] settles *)
| Render
| ClickChemical (chem : chemical)
| SelectResponse (ok : bool)
| ClickBack
| StopResponse
| BeforeUnload
| Unmount.

Definition step (s : session) (e : event) : session :=
  match e with
  | CatalogLoaded r =>
      if catalogPending s then
        let s := with_pending false (selectPending s) (backPending s) s in
        match r with
        | Some l => setChemicals l s
        | None => s
        end
      else s
  | Render =>
      if mounted s then
        {| state := state s; view := state s; stopCalled := stopCalled s;
           catalogPending := catalogPending s;
           selectPending := selectPending s; backPending := backPending s;
           unloadListener := unloadListener s; mounted := mounted s;
           out := out s |}
      else s
  | ClickChemical chem => if mounted s then handleSelectChemical chem s else s
  | SelectResponse ok =>
      match selectPending s with
      | chem :: rest =>
          handleSelectChemical_resume chem ok
            (with_pending (catalogPending s) rest (backPending s) s)
      | [] => s
      end
  | ClickBack => handleBack s
  | StopResponse =>
      if backPending s
      then emit (navigate "/dashboard")
             (with_pending (catalogPending s) (selectPending s) false s)
      else s
  | BeforeUnload => if unloadListener s then onUnload s else s
  | Unmount => if mounted s then unmount s else s
  end.

Definition run (s : session) (es : list event) : session :=
  fold_left step es s.

Definition first_render : hooks :=
  {| chemicals := []; activeChemical := None; loadingChem := None |}.

(** Right after mounting: the catalog is being fetched and the unload
    listener is registered. *)
Definition mount : session :=
  {| state := first_render; view := first_render; stopCalled := false;
     catalogPending := true; selectPending := []; backPending := false;
     unloadListener := true; mounted := true;
     out := [http_get "/reactions/chemicals/"] |}.

(** The three categories the panel has a group for. *)
Definition grouped (c : chemical) : bool :=
  is_str (type c) "acid" || is_str (type c) "base" || is_str (type c) "neutral".

(** The one-shot flag accounts for the stop POST: none before it is set,
    one after. *)
Definition stop_accounted (s : session) : Prop :=
  count is_stop_post (out s) = Nat.b2n (stopCalled s) /\
  (mounted s = false -> stopCalled s = true).

(** The loading mark is up only while a POST of a selection is pending. *)
Definition mark_backed (s : session) : Prop :=
  selectPending s = [] -> loadingChem (state s) = None.

(** Every request that tells the backend to stop: the POST through axios
    and the beacon of the unload listener. *)
Definition is_stop_request (o : output) : bool :=
  match o with
  | http_post p => String.eqb p "/reactions/stop/"
  | send_beacon p => String.eqb p "http://localhost:8000/api/reactions/stop/"
  | _ => false
  end.

(** The [beforeunload] events of a run that find the listener registered. *)
Fixpoint unloads (s : session) (es : list event) : nat :=
  match es with
  | [] => 0
  | e :: es' =>
      match e with
      | BeforeUnload => Nat.b2n (unloadListener s)
      | _ => 0
      end + unloads (step s e) es'
  end.

End Selector.

(** ** The socket address *)

(** [getWsUrl], from [window.location.protocol], the build-time variable
    [VITE_WS_HOST] and [window.location.host]. *)
Definition getWsUrl (protocol : string) (VITE_WS_HOST : option string)
           (location_host : string) : string :=
  let proto := if String.eqb protocol "https:" then "wss" else "ws" in
  let host := match or_else VITE_WS_HOST (Some location_host) with
              | Some h => h
              | None => location_host
              end in
  String.append proto (String.append "://" (String.append host "/ws/lab/")).

(** ** The ref mirrors *)

Definition is_set_chemical (o : output) : bool :=
  match o with
  | ws_send_text (set_chemical _) => true
  | _ => false
  end.

(** The answer to a selection that confirms it. *)
Definition is_confirm (e : event) : bool :=
  match e with
  | SelectResponse true => true
  | _ => false
  end.

(** [startPipeline] has settled and the socket, if there is one, is past
    connecting: no [open] event is to come. *)
Definition past_open (s : session) : Prop :=
  starting (dom s) = false /\ socket (dom s) <> Some CONNECTING.

(** * Properties *)

(** ** The hint matrix *)

(** C1. For each of the six pairs of a substance category and an indicator
    mode, [getReactionHint] returns a hint; its [reacts] flag is set exactly
    for blue litmus with an acid and for red litmus with a base, and its
    [detail] text is not empty. *)
Theorem getReactionHint_matrix :
  forall c r : string,
    In c categories -> In r indicators ->
    exists h,
      getReactionHint (Some c) (Some r) = Some h /\
      (reacts h = true <->
         (r = "blue_litmus" /\ c = "acid") \/ (r = "red_litmus" /\ c = "base")) /\
      detail h <> EmptyString.
Proof.
  intros c r Hc Hr.
  unfold categories, indicators in *; simpl in Hc, Hr.
  destruct Hc as [<- | [<- | [<- | []]]]; destruct Hr as [<- | [<- | []]];
    (eexists; split; [reflexivity |]; split;
     [ cbn; split;
       [ intro H; try discriminate H; auto
       | intros [[H1 H2] | [H1 H2]]; try discriminate H1; try discriminate H2;
         reflexivity ]
     | cbv; discriminate ]).
Qed.

Lemma getReactionHint_matrix_witness :
  exists h,
    getReactionHint (Some "acid") (Some "blue_litmus") = Some h /\
    (reacts h = true <->
       ("blue_litmus" = "blue_litmus" /\ "acid" = "acid") \/
       ("blue_litmus" = "red_litmus" /\ "acid" = "base")) /\
    detail h <> EmptyString.
Proof.
  apply (getReactionHint_matrix "acid" "blue_litmus"); simpl; auto.
Defined.

(** ** Bookkeeping *)

Lemma count_snoc {A : Type} (p : A -> bool) (l : list A) (x : A) :
  count p (l ++ [x]) = count p l + (if p x then 1 else 0).
Proof.
  unfold count. rewrite filter_app, length_app. simpl.
  destruct (p x); reflexivity.
Qed.

Lemma count_cons {A : Type} (p : A -> bool) (x : A) (l : list A) :
  count p (x :: l) = (if p x then 1 else 0) + count p l.
Proof. unfold count. cbn [filter]. destruct (p x); reflexivity. Qed.

Lemma texts_snoc (l : list output) (o : output) :
  texts (l ++ [o]) =
  texts l ++ (match o with ws_send_text c => [c] | _ => [] end).
Proof.
  induction l as [| x l IH]; simpl.
  - destruct o; reflexivity.
  - destruct x; simpl; rewrite IH; reflexivity.
Qed.

(** The string tests stay folded during case analysis. *)
#[local] Arguments is_str : simpl never.
#[local] Arguments truthy : simpl never.
#[local] Arguments same_dep : simpl never.
#[local] Arguments or_else : simpl never.
#[local] Arguments buildRevealMessage : simpl never.
#[local] Arguments String.eqb : simpl never.

(** Projections of the session pushed through the setters. *)
Ltac fields :=
  cbn [ref state view dom out
       stopCalled pollRef wsRef streamRef wsReady frameTimerRef sendingRef
       reactionTypeRef activeChemRef
       activeId activeChem loadingChem revealData reactionType wsStatus
       socket pollTimer frameTimer camera encoding buffering unloadListener
       statusPending selectPending currentPending starting backPending mounted
       upd_ref upd_state upd_dom emit with_view
       put_stopCalled put_wsRef put_streamRef put_wsReady put_frameTimerRef
       put_sendingRef put_reactionTypeRef put_activeChemRef
       setActiveId setActiveChem setLoadingChem setRevealData setReactionType
       setWsStatus
       with_socket with_pollTimer with_frameTimer with_camera with_encoding
       with_buffering with_unloadListener with_statusPending
       with_selectPending with_currentPending with_starting with_backPending
       with_mounted andb orb negb] in *.

(** The handlers, one layer at a time: [stopPipeline], [teardown_cleanup]
    and the browser primitives stay folded. *)
Ltac handlers :=
  unfold step, startPipeline_resume, sendFrame, toBlob_callback,
    arrayBuffer_then, onopen, onmessage, onerror, onclose, current_then,
    render, poll_tick, poll_resume, handleSelectChemical,
    handleSelectChemical_resume, handleBack, handleBack_resume, onUnload,
    unmount in *; cbv zeta.

(** A transition relation [R] that is a preorder is checked along a handler
    from its last operation back to its first: a test splits the goal, any
    other operation [f x] leaves [R x (f x)] to [base] and goes on with
    [x]. *)
Ltac peel refl trans base :=
  repeat lazymatch goal with
         | |- _ ?s ?s => apply refl
         | |- _ ?s (if ?t then _ else _) => destruct t eqn:?
         | |- _ ?s (match ?t with _ => _ end) => destruct t eqn:?
         | |- _ ?s (?f ?x) => apply (trans s x (f x)); [ | solve [base] ]
         end.

(** The argument of the last operation plays no role in [R x (f x)]. *)
Ltac forget_history :=
  lazymatch goal with
  | |- _ ?x (_ ?x) => tryif is_var x then idtac else (generalize x; clear; intro)
  end.

(** ** The fallback poll *)

Lemma poll_quiet_refl (s : session) : poll_quiet s s.
Proof. unfold poll_quiet; auto. Qed.

Lemma poll_quiet_trans (s1 s2 s3 : session) :
  poll_quiet s1 s2 -> poll_quiet s2 s3 -> poll_quiet s1 s3.
Proof.
  unfold poll_quiet; intros [H1 H2] [H3 H4]; split; [congruence |].
  intro H. destruct (H2 H) as [H5 H6]. destruct (H4 H5) as [H7 H8].
  split; congruence.
Qed.

Ltac poll_prim :=
  idtac; forget_history;
  unfold poll_quiet, wsSend, ws_send, ws_close_call, clearInterval; fields;
  repeat match goal with
         | |- context [match ?t with _ => _ end] => destruct t eqn:?; fields
         end;
  rewrite ?count_snoc; cbn;
  (split; [congruence | intros; (split; [congruence | lia])]).

Lemma poll_quiet_stopPipeline (s : session) : poll_quiet s (stopPipeline s).
Proof.
  unfold stopPipeline; cbv zeta.
  peel poll_quiet_refl poll_quiet_trans poll_prim.
Qed.

Lemma poll_quiet_teardown (s : session) : poll_quiet s (teardown_cleanup s).
Proof.
  unfold teardown_cleanup; cbv zeta.
  peel poll_quiet_refl poll_quiet_trans
       ltac:(first [apply poll_quiet_stopPipeline | poll_prim]).
Qed.

Ltac poll_base :=
  first [apply poll_quiet_stopPipeline | apply poll_quiet_teardown | poll_prim].

Lemma poll_quiet_step (s : session) (e : event) : poll_quiet s (step s e).
Proof.
  destruct e; handlers.
  all: peel poll_quiet_refl poll_quiet_trans poll_base.
  (* the tick of a poll that is still scheduled *)
  unfold poll_quiet; fields; split; [reflexivity | congruence].
Qed.

Lemma poll_quiet_run (es : list event) (s : session) : poll_quiet s (run s es).
Proof.
  revert s; induction es as [| e es IH]; intro s; cbn.
  - apply poll_quiet_refl.
  - eapply poll_quiet_trans; [apply poll_quiet_step | apply IH].
Qed.

Lemma pollRef_run (es : list event) : pollRef (ref (run mount es)) = Some PollTimer.
Proof. destruct (poll_quiet_run es mount) as [H _]. exact H. Qed.

(** C6. Once a [reaction_complete] event has been handled on the open
    socket, the poll interval is cancelled on the spot and stays cancelled,
    and whatever happens later, however long after the event, the component
    issues no further [GET /reactions/status/]: the requests in the log are
    those that were there when the event arrived. *)
Theorem poll_stops_after_push :
  forall (before after : list event) (c : option chemical) (rt : option string),
    let s := run mount before in
    let s' := step s (complete_push c rt) in
    is_open s = true ->
    pollTimer (dom s') = false /\
    pollTimer (dom (run s' after)) = false /\
    count is_status_get (out (run s' after)) = count is_status_get (out s).
Proof.
  intros before after c rt s s' Hopen.
  assert (Hs' : pollTimer (dom s') = false /\
                count is_status_get (out s') = count is_status_get (out s)).
  { subst s'. unfold complete_push, step. rewrite Hopen.
    unfold onmessage. cbn [msg_type msg_chemical msg_reaction_type].
    replace (is_str (Some "reaction_complete") "reaction_complete") with true
      by reflexivity.
    cbv zeta. subst s. rewrite pollRef_run. cbn. auto. }
  destruct Hs' as [Hoff Hsame].
  destruct (poll_quiet_run after s') as [_ H].
  destruct (H Hoff) as [H1 H2].
  repeat split; congruence.
Qed.

Lemma poll_stops_after_push_witness :
  let before := [PipelineUp started; WsOpen; PollTick] in
  let after := [PollTick; PollTick] in
  let s := run mount before in
  let s' := step s (complete_push (Some HCl) (Some "blue_litmus")) in
  is_open s = true /\
  pollTimer (dom s') = false /\
  pollTimer (dom (run s' after)) = false /\
  count is_status_get (out (run s' after)) = count is_status_get (out s).
Proof.
  split; [reflexivity |].
  apply (poll_stops_after_push [PipelineUp started; WsOpen; PollTick]
           [PollTick; PollTick] (Some HCl) (Some "blue_litmus")).
  reflexivity.
Defined.

(** ** The frame sender *)

Lemma same_frames_refl (s : session) : same_frames s s.
Proof. reflexivity. Qed.

Lemma same_frames_trans (s1 s2 s3 : session) :
  same_frames s1 s2 -> same_frames s2 s3 -> same_frames s1 s3.
Proof. unfold same_frames; congruence. Qed.

Ltac frames_prim :=
  idtac; forget_history;
  unfold same_frames, frame_view, wsSend, ws_send, ws_close_call, clearInterval;
  fields;
  repeat match goal with
         | |- context [match ?t with _ => _ end] => destruct t eqn:?; fields
         end;
  rewrite ?count_snoc; cbn; rewrite ?Nat.add_0_r; reflexivity.

Lemma same_frames_stopPipeline (s : session) : same_frames s (stopPipeline s).
Proof.
  unfold stopPipeline; cbv zeta.
  peel same_frames_refl same_frames_trans frames_prim.
Qed.

Lemma same_frames_teardown (s : session) : same_frames s (teardown_cleanup s).
Proof.
  unfold teardown_cleanup; cbv zeta.
  peel same_frames_refl same_frames_trans
       ltac:(first [apply same_frames_stopPipeline | frames_prim]).
Qed.

Ltac frames_base :=
  first [apply same_frames_stopPipeline | apply same_frames_teardown | frames_prim].

Lemma same_frames_step (s : session) (e : event) :
  frame_event e = false -> same_frames s (step s e).
Proof.
  destruct e; intro He; try discriminate He; handlers.
  all: peel same_frames_refl same_frames_trans frames_base.
Qed.

Lemma frame_step (s : session) (e : event) :
  busy_covers s ->
  busy_covers (step s e) /\
  count is_frame (out (step s e)) + in_flight (step s e)
  <= count is_frame (out s) + in_flight s
     + (if is_tick e && frameTimer (dom s) then 1 else 0).
Proof.
  intro Hs.
  destruct (frame_event e) eqn:He.
  - unfold busy_covers, in_flight in *.
    destruct e; try discriminate He; handlers; unfold ws_send, is_open; fields;
      cbn [is_tick andb];
      repeat match goal with
             | |- context [match ?t with _ => _ end] => destruct t eqn:?; fields
             end;
      rewrite ?count_snoc; cbn [is_frame];
      repeat match goal with
             | H : context [if ?b then _ else _] |- _ => destruct b
             end;
      split; lia.
  - pose proof (same_frames_step s e He) as H.
    unfold same_frames, frame_view in H. injection H as H1 H2 H3 H4.
    unfold busy_covers, in_flight in *. rewrite H1, H2, H3, H4.
    destruct e; try discriminate He; cbn [is_tick andb]; split; lia.
Qed.

Lemma frame_run (es : list event) (s : session) :
  busy_covers s ->
  busy_covers (run s es) /\
  count is_frame (out (run s es)) + in_flight (run s es)
  <= count is_frame (out s) + in_flight s + ticks s es.
Proof.
  revert s; induction es as [| e es IH]; intros s Hs.
  - cbn. split; [exact Hs | lia].
  - destruct (frame_step s e Hs) as [H1 H2].
    destruct (IH (step s e) H1) as [H3 H4].
    change (run s (e :: es)) with (run (step s e) es).
    split; [exact H3 |].
    cbn [ticks]. lia.
Qed.

Lemma ticks_le_events (es : list event) (s : session) :
  ticks s es <= count is_tick es.
Proof.
  revert s; induction es as [| e es IH]; intro s; cbn [ticks].
  - cbn. lia.
  - rewrite count_cons. specialize (IH (step s e)).
    destruct (is_tick e), (frameTimer (dom s)); cbn [andb]; lia.
Qed.

(** C4. Whatever the sequence of events, a tick of the frame interval that
    finds the busy flag still set changes nothing (the frame is skipped, and
    nothing is queued for later); at every moment at most one
    encode-and-send is under way; and the frames sent never outnumber the
    ticks of the interval. *)
Theorem frame_backpressure :
  forall es : list event,
    let s := run mount es in
    (sendingRef (ref s) = true -> step s FrameTick = s) /\
    in_flight s <= 1 /\
    count is_frame (out s) <= ticks mount es /\
    ticks mount es <= count is_tick es.
Proof.
  intros es s.
  assert (H0 : busy_covers mount) by (unfold busy_covers, in_flight; cbn; lia).
  destruct (frame_run es mount H0) as [H1 H2].
  fold s in H1, H2.
  split; [| split; [| split]].
  - intro Hbusy. unfold step, sendFrame. rewrite Hbusy.
    rewrite !orb_true_r. destruct (frameTimer (dom s)); reflexivity.
  - unfold busy_covers in H1. destruct (sendingRef (ref s)); lia.
  - change (count is_frame (out mount)) with 0 in H2.
    change (in_flight mount) with 0 in H2. lia.
  - apply ticks_le_events.
Qed.

Lemma frame_backpressure_witness :
  let es := [PipelineUp started; WsOpen; FrameTick] in
  let s := run mount es in
  sendingRef (ref s) = true /\
  step s FrameTick = s /\
  in_flight s <= 1 /\
  count is_frame (out s) <= ticks mount es /\
  ticks mount es <= count is_tick es.
Proof.
  intros es s.
  destruct (frame_backpressure es) as (Hskip & Hone & Hsent).
  split; [reflexivity |].
  split; [apply Hskip; reflexivity |].
  split; assumption.
Defined.

(** ** Replay on open *)

Lemma keeps_refl (I : session -> Prop) (s : session) : keeps I s s.
Proof. unfold keeps; auto. Qed.

Lemma keeps_trans (I : session -> Prop) (s1 s2 s3 : session) :
  keeps I s1 s2 -> keeps I s2 s3 -> keeps I s1 s3.
Proof. unfold keeps; auto. Qed.

Ltac all_tests :=
  repeat match goal with
         | |- context [match ?t with _ => _ end] =>
             lazymatch t with
             | context [match _ with _ => _ end] => fail
             | _ => destruct t eqn:?; fields
             end
         end.

Ltac absurd_test :=
  try match goal with
      | H : _ && false = true |- _ => rewrite andb_false_r in H; discriminate H
      end.

Ltac ready_prim :=
  idtac; try forget_history;
  unfold keeps, replay_ready, not_yet_open, wsSend, ws_send, ws_close_call,
    clearInterval, is_open;
  fields; all_tests; absurd_test;
  rewrite ?texts_snoc; cbn [app]; rewrite ?app_nil_r;
  intuition (try congruence).

Lemma ready_stopPipeline (s : session) : keeps replay_ready s (stopPipeline s).
Proof.
  unfold stopPipeline; cbv zeta.
  peel (keeps_refl replay_ready) (keeps_trans replay_ready) ready_prim.
Qed.

Lemma ready_teardown (s : session) : keeps replay_ready s (teardown_cleanup s).
Proof.
  unfold teardown_cleanup; cbv zeta.
  peel (keeps_refl replay_ready) (keeps_trans replay_ready)
       ltac:(first [apply ready_stopPipeline | ready_prim]).
Qed.

Ltac ready_base :=
  first [apply ready_stopPipeline | apply ready_teardown | ready_prim].

Lemma ready_step (s : session) (e : event) : keeps replay_ready s (step s e).
Proof.
  destruct e; handlers.
  all: peel (keeps_refl replay_ready) (keeps_trans replay_ready) ready_base.
  - (* the socket is constructed while [startPipeline] is still starting *)
    unfold keeps, replay_ready, not_yet_open; fields.
    intros (Hnone & Hquiet & Hrt & Hac).
    rewrite (Hnone Heqb) in Hquiet.
    repeat split; intros; auto; congruence.
  - (* a render brings the refs and the view up to date together *)
    unfold keeps, replay_ready, not_yet_open, wsSend, is_open; fields.
    all_tests; absurd_test; rewrite ?texts_snoc; cbn [app]; rewrite ?app_nil_r;
      intuition (try congruence).
Qed.

Lemma ready_mount : replay_ready mount.
Proof. unfold replay_ready; cbn; auto. Qed.

Lemma ready_run (es : list event) (s : session) :
  replay_ready s -> replay_ready (run s es).
Proof.
  revert s; induction es as [| e es IH]; intros s Hs; cbn.
  - exact Hs.
  - apply IH. apply (ready_step s e Hs).
Qed.

Lemma same_dep_refl (a : option string) : same_dep a a = true.
Proof. destruct a as [x |]; cbn; [apply String.eqb_refl | reflexivity]. Qed.

(** What [ws.onopen] sends, read off the two refs. *)
Lemma onopen_texts (s : session) :
  socket (dom s) = Some OPEN ->
  texts (out (onopen s)) =
  texts (out s) ++ replay (reactionTypeRef (ref s)) (activeChemRef (ref s)).
Proof.
  intro Hopen. unfold onopen, replay, ws_send, is_open; cbv zeta; fields.
  all_tests; try congruence; rewrite ?texts_snoc; cbn [app];
    rewrite <- ?app_assoc, ?app_nil_r; reflexivity.
Qed.

(** A render whose [reactionType] is the one of the previous render sends
    nothing. *)
Lemma render_quiet (s : session) :
  reactionType (view s) = reactionType (state s) ->
  out (render s) = out s /\
  reactionType (view (render s)) = reactionType (state (render s)).
Proof.
  intro H. unfold render; cbv zeta. rewrite <- H, same_dep_refl.
  fields. auto.
Qed.

Lemma renders_quiet (n : nat) (s : session) :
  reactionType (view s) = reactionType (state s) ->
  out (run s (repeat Render n)) = out s.
Proof.
  revert s; induction n as [| n IH]; intros s H; cbn [repeat run fold_left].
  - reflexivity.
  - unfold step at 2. destruct (mounted (dom s)).
    + destruct (render_quiet s H) as [H1 H2].
      fold (run (render s) (repeat Render n)). rewrite IH; assumption.
    + fold (run s (repeat Render n)). apply IH; assumption.
Qed.

(** What the replay does once the setup is rendered.  Take any run of the
    session that ends while the socket is still connecting, with the
    indicator mode and the selection it has set up rendered.  Nothing has been sent over the socket so far; the [open]
    event sends exactly the [set_reaction] command for the indicator mode (if
    one is known) followed by the [set_chemical] command for the selection
    (if there is one), each once; and the renders that follow send neither
    of them again. *)
Lemma replay_on_open :
  forall es : list event,
    let s := run mount es in
    is_connecting s = true ->
    rendered s ->
    texts (out s) = [] /\
    texts (out (step s WsOpen)) =
      replay (reactionType (state s)) (activeChem (state s)) /\
    forall n : nat,
      texts (out (run (step s WsOpen) (repeat Render n))) =
      replay (reactionType (state s)) (activeChem (state s)).
Proof.
  intros es s Hconn [Hrt Hac].
  destruct (ready_run es mount ready_mount) as (_ & Hquiet & Mrt & Mac).
  fold s in Hquiet, Mrt, Mac.
  unfold is_connecting in Hconn.
  destruct (socket (dom s)) as [[| | |] |] eqn:Hsock; try discriminate Hconn.
  assert (Hnone : texts (out s) = []).
  { apply Hquiet. unfold not_yet_open. rewrite Hsock. reflexivity. }
  assert (Hopen : texts (out (step s WsOpen)) =
                  replay (reactionType (state s)) (activeChem (state s))).
  { unfold step. rewrite Hsock. rewrite onopen_texts by reflexivity.
    fields. rewrite Hnone, Mrt, Mac, Hrt, Hac. reflexivity. }
  split; [exact Hnone |]. split; [exact Hopen |].
  intro n. rewrite renders_quiet; [exact Hopen |].
  unfold step. rewrite Hsock. unfold onopen, ws_send; cbv zeta; fields.
  all_tests; fields; exact Hrt.
Qed.

Lemma replay_on_open_witness :
  let es := [PipelineUp started; CurrentLoaded (Some (Some "blue_litmus"));
             ClickChemical HCl; SelectResponse true; Render] in
  let s := run mount es in
  is_connecting s = true /\
  rendered s /\
  texts (out s) = [] /\
  texts (out (step s WsOpen)) = [set_reaction "blue_litmus"; set_chemical "HCl"] /\
  forall n : nat,
    texts (out (run (step s WsOpen) (repeat Render n))) =
    [set_reaction "blue_litmus"; set_chemical "HCl"].
Proof.
  intros es s.
  assert (Hc : is_connecting s = true) by reflexivity.
  assert (Hr : rendered s) by (split; reflexivity).
  split; [exact Hc |]. split; [exact Hr |].
  exact (replay_on_open es Hc Hr).
Defined.

(** ** The closed transport *)

Ltac closed_prim :=
  idtac; try forget_history;
  unfold keeps, closed_for_good, wsSend, ws_send, ws_close_call,
    clearInterval, is_open;
  fields; all_tests; intuition (try congruence).

Lemma closed_stopPipeline (s : session) : keeps closed_for_good s (stopPipeline s).
Proof.
  unfold stopPipeline; cbv zeta.
  peel (keeps_refl closed_for_good) (keeps_trans closed_for_good) closed_prim.
Qed.

Lemma closed_teardown (s : session) : keeps closed_for_good s (teardown_cleanup s).
Proof.
  unfold teardown_cleanup; cbv zeta.
  peel (keeps_refl closed_for_good) (keeps_trans closed_for_good)
       ltac:(first [apply closed_stopPipeline | closed_prim]).
Qed.

Ltac closed_base :=
  first [apply closed_stopPipeline | apply closed_teardown | closed_prim].

Lemma closed_step (s : session) (e : event) : keeps closed_for_good s (step s e).
Proof.
  destruct e; handlers.
  all: peel (keeps_refl closed_for_good) (keeps_trans closed_for_good) closed_base.
  all: unfold keeps, closed_for_good; fields; intuition congruence.
Qed.

Lemma closed_run (es : list event) (s : session) :
  closed_for_good s -> closed_for_good (run s es).
Proof.
  revert s; induction es as [| e es IH]; intros s Hs; cbn.
  - exact Hs.
  - apply IH. apply (closed_step s e Hs).
Qed.

(** C9. When the transport, live or not yet closed, is hit by an error or
    a close event, the connection status becomes [error]; and whatever
    happens afterwards the status stays [error] and the socket stays closed:
    no handler constructs a new socket, and the closed one never opens
    again. *)
Theorem closed_is_terminal :
  forall (before after : list event) (e : event),
    let s := run mount before in
    transport_up s = true ->
    e = WsError \/ e = WsClose ->
    wsStatus (state (step s e)) = error /\
    socket (dom (step s e)) = Some CLOSED /\
    wsStatus (state (run (step s e) after)) = error /\
    socket (dom (run (step s e) after)) = Some CLOSED /\
    is_open (run (step s e) after) = false.
Proof.
  intros before after e s Hup He.
  destruct (ready_run before mount ready_mount) as (Hbuilt & _).
  fold s in Hbuilt.
  unfold transport_up in Hup.
  assert (Hstart : starting (dom s) = false).
  { destruct (starting (dom s)); [| reflexivity].
    rewrite (Hbuilt eq_refl) in Hup. discriminate Hup. }
  assert (Hclosed : closed_for_good (step s e)).
  { destruct (socket (dom s)) as [[| | |] |] eqn:Hsock; try discriminate Hup;
      destruct He as [-> | ->]; unfold step; rewrite Hsock;
      unfold closed_for_good, onclose, onerror; fields; auto. }
  pose proof (closed_run after _ Hclosed) as (H1 & H2 & _).
  destruct Hclosed as (H3 & H4 & _).
  unfold is_open. rewrite H1. auto.
Qed.

Lemma closed_is_terminal_witness :
  let before := [PipelineUp started; WsOpen] in
  let after := [WsOpen; Render; PipelineUp started; WsMessage binary; ClickBack] in
  let s := run mount before in
  transport_up s = true /\
  wsStatus (state s) = live /\
  wsStatus (state (step s WsError)) = error /\
  socket (dom (step s WsError)) = Some CLOSED /\
  wsStatus (state (run (step s WsError) after)) = error /\
  socket (dom (run (step s WsError) after)) = Some CLOSED /\
  is_open (run (step s WsError) after) = false.
Proof.
  split; [reflexivity |].
  split; [reflexivity |].
  apply (closed_is_terminal [PipelineUp started; WsOpen]
           [WsOpen; Render; PipelineUp started; WsMessage binary; ClickBack]
           WsError).
  - reflexivity.
  - left; reflexivity.
Defined.

(** ** Selecting a substance *)

(** C7. When the POST of a selection settles, the loading mark is cleared,
    on success and on failure alike; and on failure the active identifier,
    the stored substance and the ref that mirrors it are what they were, and
    nothing but the console message comes out. *)
Theorem selection_failure_keeps_selection :
  forall (s : session) (chem : chemical) (rest : list chemical) (ok : bool),
    selectPending (dom s) = chem :: rest ->
    let s' := step s (SelectResponse ok) in
    loadingChem (state s') = None /\
    selectPending (dom s') = rest /\
    (ok = false ->
     activeId (state s') = activeId (state s) /\
     activeChem (state s') = activeChem (state s) /\
     activeChemRef (ref s') = activeChemRef (ref s) /\
     out s' = out s ++ [console_error]).
Proof.
  intros s chem rest ok Hp s'. subst s'.
  unfold step. rewrite Hp.
  unfold handleSelectChemical_resume, wsSend; cbv zeta.
  destruct ok; fields; all_tests; fields;
    repeat split; try reflexivity; discriminate.
Qed.

Lemma selection_failure_keeps_selection_witness :
  let s := run mount [ClickChemical NaOH; SelectResponse true; Render;
                      ClickChemical HCl] in
  let s' := step s (SelectResponse false) in
  selectPending (dom s) = [HCl] /\
  activeId (state s) = Some "NaOH" /\
  loadingChem (state s) = Some "HCl" /\
  loadingChem (state s') = None /\
  activeId (state s') = Some "NaOH" /\
  activeChem (state s') = Some NaOH.
Proof.
  intros s s'.
  assert (Hp : selectPending (dom s) = [HCl]) by reflexivity.
  destruct (selection_failure_keeps_selection s HCl [] false Hp)
    as (Hload & _ & Hkeep).
  destruct (Hkeep eq_refl) as (Hid & Hchem & _).
  split; [exact Hp |].
  split; [reflexivity |].
  split; [reflexivity |].
  split; [exact Hload |].
  split; [exact (eq_trans Hid eq_refl) | exact (eq_trans Hchem eq_refl)].
Defined.

(** ** Completion reports *)

(** What the fill does once the state is rendered.  In any run of the
    session whose last state change has been rendered, a completion report, pushed over the open socket or returned
    to a poll request that is under way, sets the outcome built from the
    report's own snapshot where it has one and, for each of the two fields
    it leaves out, from the selection and the indicator mode the session
    has at that moment. *)
Lemma completion_fills_from_current :
  forall (es : list event) (c : option chemical) (rt : option string),
    let s := run mount es in
    rendered s ->
    (is_open s = true ->
     revealData (state (step s (complete_push c rt))) =
     buildRevealMessage (or_obj c (activeChem (state s)))
                        (or_else rt (reactionType (state s)))) /\
    (statusPending (dom s) <> 0 ->
     revealData (state (step s (complete_poll c rt))) =
     buildRevealMessage (or_obj c (activeChem (state s)))
                        (or_else rt (reactionType (state s)))).
Proof.
  intros es c rt s [Hrt Hac].
  destruct (ready_run es mount ready_mount) as (_ & _ & Mrt & Mac).
  fold s in Mrt, Mac. rewrite Hrt in Mrt. rewrite Hac in Mac.
  split.
  - intro Hopen. unfold complete_push, step. rewrite Hopen.
    unfold onmessage. cbn [msg_type msg_chemical msg_reaction_type].
    replace (is_str (Some "reaction_complete") "reaction_complete") with true
      by reflexivity.
    cbv zeta. unfold clearInterval. all_tests; fields; rewrite Mrt, Mac; reflexivity.
  - intro Hpend. unfold complete_poll, step.
    destruct (statusPending (dom s)) as [| n]; [congruence |].
    unfold poll_resume. cbn [complete data_chemical data_reaction_type].
    cbv zeta. unfold clearInterval. all_tests; fields; rewrite Mrt, Mac; reflexivity.
Qed.

Lemma completion_fills_from_current_witness :
  let es := [PipelineUp started; WsOpen; CurrentLoaded (Some (Some "blue_litmus"));
             ClickChemical NaOH; SelectResponse true; Render;
             PollTick;
             ClickChemical HCl; SelectResponse true; Render] in
  let s := run mount es in
  rendered s /\ is_open s = true /\ statusPending (dom s) <> 0 /\
  activeChem (state s) = Some HCl /\
  reactionType (state s) = Some "blue_litmus" /\
  revealData (state (step s (complete_push None None))) =
    buildRevealMessage (or_obj None (activeChem (state s)))
                       (or_else None (reactionType (state s))) /\
  revealData (state (step s (complete_poll None None))) =
    buildRevealMessage (or_obj None (activeChem (state s)))
                       (or_else None (reactionType (state s))).
Proof.
  intros es s.
  assert (Hr : rendered s) by (split; vm_compute; reflexivity).
  assert (Ho : is_open s = true) by (vm_compute; reflexivity).
  assert (Hp : statusPending (dom s) <> 0) by (vm_compute; discriminate).
  destruct (completion_fills_from_current es None None Hr) as [Hpush Hpoll].
  split; [exact Hr |].
  split; [exact Ho |].
  split; [exact Hp |].
  split; [vm_compute; reflexivity |].
  split; [vm_compute; reflexivity |].
  split; [exact (Hpush Ho) | exact (Hpoll Hp)].
Defined.

Lemma build_none (rt : option string) : buildRevealMessage None rt = None.
Proof. reflexivity. Qed.

(** C10. The reveal builder returns nothing without a substance.  So a
    completion report that carries no substance, arriving while no substance
    is selected and no outcome is shown, leaves the outcome unset: the
    display is what it was, idle or hint, and nothing is sent. *)
Theorem completion_without_substance_is_dropped :
  forall (s : session) (rt : option string),
    revealData (state s) = None ->
    activeChemRef (ref s) = None ->
    (forall rt', buildRevealMessage None rt' = None) /\
    (let s' := step s (complete_push None rt) in
     revealData (state s') = None /\
     displayed (state s') = displayed (state s) /\
     out s' = out s) /\
    (let s' := step s (complete_poll None rt) in
     revealData (state s') = None /\
     displayed (state s') = displayed (state s) /\
     out s' = out s).
Proof.
  intros s rt Hnone Hsel.
  split; [reflexivity |].
  split.
  - unfold complete_push, step. destruct (is_open s); [| auto].
    unfold onmessage. cbn [msg_type msg_chemical msg_reaction_type].
    replace (is_str (Some "reaction_complete") "reaction_complete") with true
      by reflexivity.
    cbv zeta. unfold clearInterval. fields.
    destruct (pollRef (ref s)) as [[|] |]; fields; rewrite Hsel;
      cbn [or_obj]; rewrite build_none;
      unfold displayed, reactionHint; fields; rewrite Hnone; auto.
  - unfold complete_poll, step. destruct (statusPending (dom s)) as [| n]; [auto |].
    unfold poll_resume. cbn [complete data_chemical data_reaction_type].
    cbv zeta. unfold clearInterval. fields.
    destruct (pollRef (ref s)) as [[|] |]; fields; rewrite Hsel;
      cbn [or_obj]; rewrite build_none;
      unfold displayed, reactionHint; fields; rewrite Hnone; auto.
Qed.

Lemma completion_without_substance_is_dropped_witness :
  let s := run mount [PipelineUp started; WsOpen;
                      CurrentLoaded (Some (Some "red_litmus")); Render] in
  let s' := step s (complete_push None None) in
  revealData (state s') = None /\ displayed (state s') = idle /\ out s' = out s.
Proof.
  intros s s'.
  destruct (completion_without_substance_is_dropped s None)
    as (_ & (H1 & H2 & H3) & _); try reflexivity.
  split; [exact H1 |]. split; [| exact H3].
  apply (eq_trans H2). vm_compute. reflexivity.
Defined.

(** ** The completion race *)

(** C2 (the code departs from it). With a poll request under way, a pushed
    completion for an acid on blue litmus sets the outcome; the reply to the
    poll, reporting a base on red litmus, then replaces it.  In the other
    order the pushed event replaces the outcome the poll had set.  A second
    report without a snapshot, with nothing selected, even clears it.  And
    with reports that carry no snapshot at all, a selection whose POST
    settles between the two reports changes the verdict shown. *)
Theorem second_report_overwrites_outcome :
  let s0 := run mount [PipelineUp started; WsOpen; PollTick] in
  let acid := buildRevealMessage (Some HCl) (Some "blue_litmus") in
  let base := buildRevealMessage (Some NaOH) (Some "red_litmus") in
  let wrong := buildRevealMessage (Some NaOH) (Some "blue_litmus") in
  acid <> None /\ acid <> base /\ acid <> wrong /\
  revealData (state (run s0 [complete_push (Some HCl) (Some "blue_litmus")])) = acid /\
  revealData (state (run s0 [complete_push (Some HCl) (Some "blue_litmus");
                             complete_poll (Some NaOH) (Some "red_litmus")])) = base /\
  revealData (state (run s0 [complete_poll (Some HCl) (Some "blue_litmus")])) = acid /\
  revealData (state (run s0 [complete_poll (Some HCl) (Some "blue_litmus");
                             complete_push (Some NaOH) (Some "red_litmus")])) = base /\
  revealData (state (run s0 [complete_push (Some HCl) (Some "blue_litmus");
                             complete_poll None None])) = None /\
  let s1 := run mount [PipelineUp started; WsOpen;
                       CurrentLoaded (Some (Some "blue_litmus"));
                       ClickChemical HCl; SelectResponse true; Render;
                       ClickChemical NaOH; PollTick] in
  revealData (state (run s1 [complete_push None None])) = acid /\
  revealData (state (run s1 [complete_push None None; SelectResponse true;
                             Render; complete_poll None None])) = wrong.
Proof.
  cbv zeta.
  split; [vm_compute; discriminate |].
  split; [vm_compute; discriminate |].
  split; [vm_compute; discriminate |].
  repeat split; vm_compute; reflexivity.
Qed.

(** ** Teardown *)

(** [stopPipeline] releases the camera when it holds the stream, and lets go
    of the stream. *)
Lemma stopPipeline_teardown (s : session) :
  teardown_view (stopPipeline s) =
  (stopCalled (ref s), false, starting (dom s), count is_stop_post (out s),
   count is_track_stop (out s) + (if streamRef (ref s) then 1 else 0)).
Proof.
  unfold stopPipeline, ws_close_call, clearInterval, teardown_view; cbv zeta.
  fields; all_tests; fields; rewrite ?count_snoc;
    cbn [is_stop_post is_track_stop]; rewrite ?Nat.add_0_r;
    try reflexivity; congruence.
Qed.

Lemma torn_stopPipeline (s : session) : keeps torn_once s (stopPipeline s).
Proof.
  pose proof (stopPipeline_teardown s) as H.
  unfold teardown_view in H. injection H as H1 H2 H3 H4 H5.
  unfold keeps, torn_once. rewrite H1, H2, H3, H4, H5.
  destruct (stopCalled (ref s)), (streamRef (ref s)), (starting (dom s));
    cbn [Nat.b2n]; lia.
Qed.

(** The guarded part shared by [handleBack] and the effect cleanup. *)
Lemma torn_guarded (s : session) :
  stopCalled (ref s) = false ->
  torn_once s ->
  torn_once
    (emit (http_post "/reactions/stop/")
       (stopPipeline
          (clearInterval (pollRef (ref (put_stopCalled true s)))
             (put_stopCalled true s)))).
Proof.
  intros Hflag [Hpost Hcam].
  rewrite Hflag in Hpost.
  pose proof (stopPipeline_teardown
                (clearInterval (pollRef (ref (put_stopCalled true s)))
                   (put_stopCalled true s))) as H.
  unfold teardown_view in H. injection H as H1 H2 H3 H4 H5.
  assert (Hsame : same_teardown (put_stopCalled false s)
                    (put_stopCalled false
                       (clearInterval (pollRef (ref (put_stopCalled true s)))
                          (put_stopCalled true s)))).
  { unfold same_teardown, teardown_view, clearInterval. fields.
    destruct (pollRef (ref s)) as [[|] |]; reflexivity. }
  unfold same_teardown, teardown_view in Hsame. fields.
  injection Hsame as E2 E3 E4 E5.
  unfold torn_once. fields. rewrite count_snoc, (count_snoc is_track_stop).
  cbn [is_stop_post is_track_stop String.eqb].
  rewrite H1, H2, H3, H4, H5, E2, E3, E4, E5.
  replace ("/reactions/stop/" =? "/reactions/stop/")%string with true
    by reflexivity.
  unfold clearInterval. fields.
  destruct (pollRef (ref s)) as [[|] |]; fields;
    destruct (streamRef (ref s)), (starting (dom s)); cbn [Nat.b2n] in *; lia.
Qed.

Lemma torn_teardown (s : session) : keeps torn_once s (teardown_cleanup s).
Proof.
  unfold teardown_cleanup; cbv zeta. fields.
  destruct (stopCalled (ref s)) eqn:Hflag.
  - unfold keeps, torn_once. fields. auto.
  - intro H. apply (torn_guarded (with_unloadListener false s) Hflag).
    unfold torn_once in *. fields. exact H.
Qed.

Ltac torn_base :=
  first [ apply torn_stopPipeline | apply torn_teardown
        | idtac; try forget_history;
          unfold keeps, torn_once, wsSend, ws_send, clearInterval, is_open;
          fields; all_tests; rewrite ?count_snoc;
          cbn [is_stop_post is_track_stop]; rewrite ?Nat.add_0_r;
          first [tauto | unfold Nat.b2n; all_tests; first [congruence | lia]] ].

Lemma torn_step (s : session) (e : event) : keeps torn_once s (step s e).
Proof.
  destruct e; handlers.
  all: peel (keeps_refl torn_once) (keeps_trans torn_once) torn_base.
  all: (* [startPipeline] stores the stream once, while it is starting *)
    try (unfold keeps, torn_once; fields; rewrite ?count_snoc;
         cbn [is_stop_post is_track_stop]; rewrite Heqb;
         destruct (streamRef (ref s)); cbn [Nat.b2n]; lia).
  (* [handleBack] past its guard *)
  intro H. apply torn_guarded; assumption.
Qed.

Lemma torn_once_run (es : list event) :
  count is_stop_post (out (run mount es)) <= 1 /\
  count is_track_stop (out (run mount es)) <= 1.
Proof.
  assert (H : forall s, torn_once s -> torn_once (run s es)).
  { induction es as [| e es IH]; intros s Hs; cbn.
    - exact Hs.
    - apply IH. apply (torn_step s e Hs). }
  assert (H0 : torn_once mount) by (unfold torn_once; cbn; lia).
  destruct (H mount H0) as [H1 H2].
  destruct (stopCalled (ref (run mount es))); cbn [Nat.b2n] in H1; lia.
Qed.


(** C3 (the code departs from it). With the pipeline up, back-navigation
    followed by the unload event and the disposal of the component issues two
    stop notifications: the POST of [handleBack] and the beacon of the
    unload listener, which neither tests nor sets the one-shot flag.  The
    same holds when the unload event comes first.  The camera is released
    once. *)
Theorem unload_beacon_repeats_stop :
  let s0 := run mount [PipelineUp started; WsOpen] in
  count is_stop_notification (out (run s0 [ClickBack; BeforeUnload; Unmount])) = 2 /\
  count is_stop_notification (out (run s0 [BeforeUnload; ClickBack; Unmount])) = 2 /\
  count is_stop_notification (out (run s0 [BeforeUnload; Unmount; ClickBack])) = 2 /\
  count is_track_stop (out (run s0 [ClickBack; BeforeUnload; Unmount])) = 1.
Proof.
  cbv zeta. repeat split; vm_compute; reflexivity.
Qed.

(** * Further properties *)

(** ** The two lookup tables on arbitrary input *)

Lemma is_str_true (o : option string) (lit : string) :
  is_str o lit = true <-> o = Some lit.
Proof.
  unfold is_str. destruct o as [x |].
  - rewrite String.eqb_eq. split; congruence.
  - split; discriminate.
Qed.

(** X1. [buildRevealMessage] answers for every substance, whatever its
    category and whatever the indicator; the verdict is NEUTRAL exactly for
    the category neutral, ACID CONFIRMED exactly for an acid on blue litmus,
    BASE CONFIRMED exactly for a base on red litmus, and NO CHANGE in every
    other case. *)
Theorem reveal_verdicts :
  forall (c : chemical) (rt : option string),
    exists r,
      buildRevealMessage (Some c) rt = Some r /\
      (verdict r = "NEUTRAL" <-> type c = Some "neutral") /\
      (verdict r = "ACID CONFIRMED" <->
         type c = Some "acid" /\ rt = Some "blue_litmus") /\
      (verdict r = "BASE CONFIRMED" <->
         type c = Some "base" /\ rt = Some "red_litmus") /\
      (verdict r = "NO CHANGE" <->
         type c <> Some "neutral" /\
         ~ (type c = Some "acid" /\ rt = Some "blue_litmus") /\
         ~ (type c = Some "base" /\ rt = Some "red_litmus")).
Proof.
  intros c rt. unfold buildRevealMessage.
  pose proof (is_str_true (type c) "neutral") as Hn.
  pose proof (is_str_true (type c) "acid") as Ha.
  pose proof (is_str_true (type c) "base") as Hb.
  pose proof (is_str_true rt "blue_litmus") as Hblue.
  pose proof (is_str_true rt "red_litmus") as Hred.
  destruct (is_str (type c) "neutral");
    [| destruct (is_str (type c) "acid"), (is_str rt "blue_litmus");
       cbn [andb];
       try (destruct (is_str (type c) "base"), (is_str rt "red_litmus");
            cbn [andb])];
    (eexists; split; [reflexivity |]; cbn [verdict];
     repeat split; intros;
     repeat match goal with
            | H : _ /\ _ |- _ => destruct H
            end;
     try discriminate; try reflexivity;
     try (intuition congruence)).
Qed.

(** X2. The hint shown before the reaction agrees with the verdict shown
    after it: for a substance of any of the three categories and either
    indicator, the hint announces a colour change exactly when the reveal
    confirms an acid or a base, and then both are drawn in the same colour;
    otherwise the hint is grey and the reveal is NEUTRAL or NO CHANGE. *)
Theorem hint_agrees_with_reveal :
  forall (c : chemical) (ct r : string),
    type c = Some ct -> In ct categories -> In r indicators ->
    exists h v,
      getReactionHint (type c) (Some r) = Some h /\
      buildRevealMessage (Some c) (Some r) = Some v /\
      (reacts h = true <->
         verdict v = "ACID CONFIRMED" \/ verdict v = "BASE CONFIRMED") /\
      (reacts h = true -> color h = rcolor v) /\
      (reacts h = false ->
         color h = "#a3a3a3" /\
         (verdict v = "NEUTRAL" \/ verdict v = "NO CHANGE")).
Proof.
  intros [i l f t] ct r Ht Hc Hr. cbn [type] in Ht. subst t.
  unfold categories, indicators in *; simpl in Hc, Hr.
  destruct Hc as [<- | [<- | [<- | []]]]; destruct Hr as [<- | [<- | []]];
    (do 2 eexists; split; [reflexivity |]; split; [reflexivity |];
     cbn [reacts verdict color rcolor];
     split; [split; [intro H; try discriminate H; auto
                    | intros [H | H]; try discriminate H; reflexivity] |];
     split; [intro H; first [discriminate H | reflexivity] |];
     intro H; first [discriminate H | (split; [reflexivity | auto])]).
Qed.

Lemma hint_agrees_with_reveal_witness :
  exists h v,
    getReactionHint (type NaOH) (Some "red_litmus") = Some h /\
    buildRevealMessage (Some NaOH) (Some "red_litmus") = Some v /\
    (reacts h = true <->
       verdict v = "ACID CONFIRMED" \/ verdict v = "BASE CONFIRMED") /\
    (reacts h = true -> color h = rcolor v) /\
    (reacts h = false ->
       color h = "#a3a3a3" /\
       (verdict v = "NEUTRAL" \/ verdict v = "NO CHANGE")).
Proof.
  apply (hint_agrees_with_reveal NaOH "base" "red_litmus");
    [reflexivity | simpl; auto | simpl; auto].
Defined.

(** X3. [getReactionHint] gives no hint exactly when the category or the
    indicator is missing or empty.  For every other input, known category
    or not, it gives a hint with a non-empty explanation, and the hint
    announces a reaction exactly for an acid on blue litmus and for a base
    on red litmus. *)
Theorem hint_on_any_input :
  forall ct rt : option string,
    (getReactionHint ct rt = None <-> truthy ct = false \/ truthy rt = false) /\
    (forall h, getReactionHint ct rt = Some h ->
       (reacts h = true <->
          (rt = Some "blue_litmus" /\ ct = Some "acid") \/
          (rt = Some "red_litmus" /\ ct = Some "base")) /\
       detail h <> EmptyString).
Proof.
  intros ct rt. unfold getReactionHint.
  pose proof (is_str_true ct "acid") as Ha.
  pose proof (is_str_true ct "base") as Hb.
  pose proof (is_str_true ct "neutral") as Hn.
  pose proof (is_str_true rt "blue_litmus") as Hblue.
  pose proof (is_str_true rt "red_litmus") as Hred.
  destruct (truthy ct), (truthy rt); cbn [negb orb];
    try (split; [split; [auto | reflexivity] | intros h H; discriminate H]).
  split; [split; [| intros [H | H]; discriminate H] |].
  - destruct (is_str rt "blue_litmus" && is_str ct "acid"
              || is_str rt "red_litmus" && is_str ct "base"); discriminate.
  - intros h.
    destruct (is_str rt "blue_litmus"), (is_str ct "acid"),
      (is_str rt "red_litmus"), (is_str ct "base"), (is_str ct "neutral");
      cbn [andb orb]; intro H; injection H as <-; cbn [reacts detail];
      (split; [| cbv; discriminate]);
      (split; [intro H; try discriminate H; intuition congruence
              | intros [[H1 H2] | [H1 H2]]; try reflexivity;
                intuition congruence]).
Qed.

(** X4. A substance whose category is missing or is none of the three is
    reported as if it were a base: unless the indicator is red litmus (where
    a real base is confirmed), its reveal is the one of the same substance
    with the category base, a NO CHANGE verdict that recommends red
    litmus. *)
Theorem unknown_category_reads_as_base :
  forall (c : chemical) (rt : option string),
    unknown_type (type c) = true ->
    is_str rt "red_litmus" = false ->
    buildRevealMessage (Some c) rt =
    buildRevealMessage (Some (retype c (Some "base"))) rt /\
    exists v, buildRevealMessage (Some c) rt = Some v /\ verdict v = "NO CHANGE".
Proof.
  intros c rt Hu Hr. unfold unknown_type in Hu.
  unfold buildRevealMessage, retype. cbn [type label formula].
  destruct (is_str (type c) "neutral"); [discriminate Hu |].
  destruct (is_str (type c) "acid"); [discriminate Hu |].
  destruct (is_str (type c) "base"); [discriminate Hu |].
  rewrite Hr. cbn [andb].
  replace (is_str (Some "base") "neutral") with false by reflexivity.
  replace (is_str (Some "base") "acid") with false by reflexivity.
  replace (is_str (Some "base") "base") with true by reflexivity.
  cbn [andb]. split; [reflexivity |]. eexists; split; reflexivity.
Qed.

Lemma unknown_category_reads_as_base_witness :
  let salt := {| id := "NaCl2"; label := "Mystery Salt"; formula := "X";
                 type := Some "salt" |} in
  buildRevealMessage (Some salt) (Some "blue_litmus") =
  buildRevealMessage (Some (retype salt (Some "base"))) (Some "blue_litmus") /\
  exists v, buildRevealMessage (Some salt) (Some "blue_litmus") = Some v /\
            verdict v = "NO CHANGE".
Proof.
  intro salt.
  apply (unknown_category_reads_as_base salt (Some "blue_litmus"));
    vm_compute; reflexivity.
Defined.

(** ** More bookkeeping *)

Lemma count_app {A : Type} (p : A -> bool) (l l' : list A) :
  count p (l ++ l') = count p l + count p l'.
Proof. unfold count. rewrite filter_app, length_app. reflexivity. Qed.

Lemma count_nil {A : Type} (p : A -> bool) : count p [] = 0.
Proof. reflexivity. Qed.

Lemma texts_app (l l' : list output) : texts (l ++ l') = texts l ++ texts l'.
Proof.
  induction l as [| x l IH]; cbn [app texts]; [reflexivity |].
  destruct x; cbn [app]; rewrite IH; reflexivity.
Qed.

(** The log is read through [count] and [texts]; what a handler appended
    is evaluated. *)
Ltac read_log :=
  rewrite ?count_app, ?texts_app;
  repeat rewrite count_cons; rewrite ?count_nil;
  cbn [texts app is_frame is_track_stop is_stop_post is_status_get
       is_stop_notification];
  rewrite ?Nat.add_0_r, ?app_nil_r.

(** ** What is in use is held by a ref *)

Lemma stopPipeline_eq (s : session) : stopPipeline s = stopPipeline_result s.
Proof.
  destruct s as [[] [] [] [] ?].
  unfold stopPipeline, stopPipeline_result, ws_close_call, clearInterval, closing;
    cbv zeta; fields.
  all_tests; try congruence; cbv -[app]; rewrite <- ?app_assoc; cbn [app];
    rewrite ?app_nil_r; reflexivity.
Qed.

(** The tests of a handler are settled first, on the folded goal; what is
    left is a straight line of assignments, and the facts learnt from the
    tests are put to use in the unfolded statement. *)
Ltac whole_handler :=
  handlers; unfold teardown_cleanup; cbv zeta; rewrite ?stopPipeline_eq;
  unfold stopPipeline_result, wsSend, ws_send, clearInterval, is_open, closing;
  fields; all_tests.

Ltac use_tests :=
  repeat match goal with
         | H : ?t = _ |- context [?t] =>
             lazymatch t with
             | context [match _ with _ => _ end] => fail
             | _ => rewrite H
             end
         end.

(** The hypotheses are taken apart, the statement is split, and each part
    follows from one or two of the hypotheses. *)
Ltac by_parts :=
  let H := fresh in
  intro H; decompose [and] H; clear H; repeat split; intros;
  first [congruence | solve [auto] | lia | tauto | intuition congruence].

Ltac wired_solve :=
  whole_handler; unfold keeps, wired, socket_alive; fields; use_tests; fields;
  all_tests; by_parts.

Lemma wired_step (s : session) (e : event) : keeps wired s (step s e).
Proof. destruct e; wired_solve. Qed.

Lemma wired_run (es : list event) : wired (run mount es).
Proof.
  assert (H : forall s, wired s -> wired (run s es)).
  { induction es as [| e es IH]; intros s Hs; cbn.
    - exact Hs.
    - apply IH. apply (wired_step s e Hs). }
  apply H. unfold wired, socket_alive. cbn.
  repeat split; try discriminate; auto.
Qed.

(** ** The status row *)

Ltac status_solve :=
  whole_handler; unfold keeps, status_truthful; fields; use_tests; fields;
  all_tests; by_parts.

Lemma status_step (s : session) (e : event) : keeps status_truthful s (step s e).
Proof. destruct e; status_solve. Qed.

Lemma status_run (es : list event) : status_truthful (run mount es).
Proof.
  assert (H : forall s, status_truthful s -> status_truthful (run s es)).
  { induction es as [| e es IH]; intros s Hs; cbn.
    - exact Hs.
    - apply IH. apply (status_step s e Hs). }
  apply H. unfold status_truthful. cbn.
  repeat split; try discriminate; auto.
Qed.

(** X5. The status row a render paints is true of the socket at that
    render: whatever has happened before, when a mounted component renders,
    the label is Live Stream if the socket is open; the label Live Stream
    is only painted for a socket that is open or closing; a closed socket
    is labelled Connection Error; and when the label is Connecting the
    socket is neither open nor closed.  The render itself leaves the socket
    as it is, and the three labels and the three colours are pairwise
    different. *)
Theorem status_row_tells_socket :
  forall es : list event,
    let s := run mount es in
    mounted (dom s) = true ->
    let s' := step s Render in
    let shown := statusLabel (wsStatus (view s')) in
    socket (dom s') = socket (dom s) /\
    (is_open s' = true -> shown = "Live Stream") /\
    (shown = "Live Stream" ->
     socket (dom s') = Some OPEN \/ socket (dom s') = Some CLOSING) /\
    (socket (dom s') = Some CLOSED -> shown = "Connection Error") /\
    (shown = "Connecting…" ->
     socket (dom s') <> Some OPEN /\ socket (dom s') <> Some CLOSED) /\
    (forall a b, statusLabel a = statusLabel b -> a = b) /\
    (forall a b, statusColor a = statusColor b -> a = b).
Proof.
  intros es s Hm s' shown.
  destruct (status_run es) as (_ & Hopen & Hlive & Hclosed).
  fold s in Hopen, Hlive, Hclosed.
  assert (E : socket (dom s') = socket (dom s) /\
              wsStatus (view s') = wsStatus (state s)).
  { subst s'. unfold step. rewrite Hm.
    unfold render, wsSend; cbv zeta; fields; all_tests; fields;
      split; reflexivity. }
  destruct E as [Es Ev]. subst shown. unfold is_open. rewrite Es, Ev.
  split; [reflexivity |].
  split; [| split; [| split; [| split; [| split]]]].
  - intro H. destruct (socket (dom s)) as [[| | |] |]; try discriminate H.
    rewrite (Hopen eq_refl). reflexivity.
  - intro H. apply Hlive.
    destruct (wsStatus (state s)); [discriminate H | reflexivity | discriminate H].
  - intro H. rewrite (Hclosed H). reflexivity.
  - intro H. split; intro Hs.
    + rewrite (Hopen Hs) in H. discriminate H.
    + rewrite (Hclosed Hs) in H. discriminate H.
  - intros [] []; cbn; intro H; try reflexivity; discriminate H.
  - intros [] []; cbn; intro H; try reflexivity; discriminate H.
Qed.

Lemma status_row_tells_socket_witness :
  let s := run mount [PipelineUp started; WsOpen; Render; WsError] in
  let s' := step s Render in
  mounted (dom s) = true /\
  statusLabel (wsStatus (view s)) = "Live Stream" /\
  socket (dom s') = Some CLOSED /\
  statusLabel (wsStatus (view s')) = "Connection Error".
Proof.
  intros s s'.
  destruct (status_row_tells_socket [PipelineUp started; WsOpen; Render; WsError])
    as (_ & _ & _ & Hclosed & _); [reflexivity |].
  split; [reflexivity |]. split; [reflexivity |]. split; [reflexivity |].
  apply Hclosed. reflexivity.
Defined.

(** ** After the transport has gone *)

Lemma shut_quiet_refl (s : session) : shut_quiet s s.
Proof. unfold shut_quiet; auto. Qed.

Lemma shut_quiet_trans (s1 s2 s3 : session) :
  shut_quiet s1 s2 -> shut_quiet s2 s3 -> shut_quiet s1 s3.
Proof.
  unfold shut_quiet; intros H1 H2 H. destruct (H1 H) as (H3 & H4 & H5).
  destruct (H2 H3) as (H6 & H7 & H8). repeat split; try congruence; apply H6.
Qed.

Ltac shut_solve :=
  whole_handler; unfold shut_quiet, shut, socket_alive; fields; use_tests;
  fields; all_tests; read_log; by_parts.

Lemma shut_quiet_step (s : session) (e : event) : shut_quiet s (step s e).
Proof. destruct e; shut_solve. Qed.

Lemma shut_quiet_run (es : list event) (s : session) : shut_quiet s (run s es).
Proof.
  revert s; induction es as [| e es IH]; intro s; cbn.
  - apply shut_quiet_refl.
  - eapply shut_quiet_trans; [apply shut_quiet_step | apply IH].
Qed.

(** X8. Once an error or a close event has hit the transport, nothing is
    sent over the socket any more, neither a frame nor a command, whatever
    happens afterwards; the frame interval itself is left as it was, so its
    later ticks still come and are all skipped. *)
Theorem closed_transport_is_silent :
  forall (before after : list event) (e : event),
    let s := run mount before in
    transport_up s = true ->
    e = WsError \/ e = WsClose ->
    frameTimer (dom (step s e)) = frameTimer (dom s) /\
    count is_frame (out (run (step s e) after)) = count is_frame (out s) /\
    texts (out (run (step s e) after)) = texts (out s).
Proof.
  intros before after e s Hup He.
  destruct (ready_run before mount ready_mount) as (Hbuilt & _).
  fold s in Hbuilt.
  unfold transport_up in Hup.
  assert (Hstart : starting (dom s) = false).
  { destruct (starting (dom s)); [| reflexivity].
    rewrite (Hbuilt eq_refl) in Hup. discriminate Hup. }
  assert (H1 : shut (step s e) /\ frameTimer (dom (step s e)) = frameTimer (dom s)
               /\ out (step s e) = out s).
  { destruct (socket (dom s)) as [[| | |] |] eqn:Hsock; try discriminate Hup;
      destruct He as [-> | ->]; unfold step; rewrite Hsock;
      unfold shut, socket_alive, onclose, onerror; fields; auto. }
  destruct H1 as (Hshut & Htimer & Hout).
  destruct (shut_quiet_run after (step s e) Hshut) as (_ & Hf & Ht).
  rewrite <- Hout. auto.
Qed.

Lemma closed_transport_is_silent_witness :
  let s := run mount [PipelineUp started; WsOpen; FrameTick] in
  let s' := step s WsClose in
  let after := [BlobReady true; BufferReady; FrameTick; Render] in
  transport_up s = true /\
  frameTimer (dom s') = frameTimer (dom s) /\
  count is_frame (out (run s' after)) = count is_frame (out s) /\
  texts (out (run s' after)) = texts (out s).
Proof.
  split; [reflexivity |].
  apply (closed_transport_is_silent [PipelineUp started; WsOpen; FrameTick]
           [BlobReady true; BufferReady; FrameTick; Render] WsClose);
    [reflexivity | right; reflexivity].
Defined.

(** ** Teardown with the pipeline up *)

(** [by_parts], with a case analysis on the flag a part is about. *)
Ltac by_cases :=
  let H := fresh in
  intro H; decompose [and] H; clear H; repeat split; intros;
  first [ congruence | solve [auto] | lia | tauto
        | match goal with
          | |- ?b = _ => destruct b eqn:?; intuition congruence
          end
        | intuition congruence ].


Ltac released_solve :=
  whole_handler; unfold keeps, released, shut, socket_alive; fields; use_tests;
  fields; all_tests; by_parts.

Lemma released_step (s : session) (e : event) : keeps released s (step s e).
Proof. destruct e; released_solve. Qed.

Lemma released_run (es : list event) (s : session) :
  released s -> released (run s es).
Proof.
  revert s; induction es as [| e es IH]; intros s Hs; cbn.
  - exact Hs.
  - apply IH. apply (released_step s e Hs).
Qed.

Lemma teardown_releases (s : session) (e : event) :
  wired s ->
  starting (dom s) = false ->
  stopCalled (ref s) = false ->
  e = ClickBack \/ e = Unmount ->
  released (step s e).
Proof.
  intros Hw Hstart Hflag He. revert Hw.
  destruct He as [-> | ->]; whole_handler;
    unfold wired, released, shut, socket_alive; fields; all_tests; by_cases.
Qed.

Lemma teardown_log (s : session) (e : event) :
  e = ClickBack \/ e = Unmount ->
  count is_frame (out (step s e)) = count is_frame (out s) /\
  texts (out (step s e)) = texts (out s) /\
  count is_status_get (out (step s e)) = count is_status_get (out s).
Proof.
  intros [-> | ->]; whole_handler; read_log; auto.
Qed.

(** X6. A first teardown, by back-navigation or by disposal, that comes
    once [startPipeline] has settled lets go of everything at once: the
    camera is off, the frame interval and the poll interval are cancelled
    and the socket is neither connecting nor open.  It stays that way
    whatever happens later, and from then on no frame, no command and no
    status request leaves the component. *)
Theorem teardown_lets_go_of_everything :
  forall (before after : list event) (e : event),
    let s := run mount before in
    starting (dom s) = false ->
    stopCalled (ref s) = false ->
    e = ClickBack \/ e = Unmount ->
    let s' := run (step s e) after in
    released (step s e) /\
    released s' /\
    count is_frame (out s') = count is_frame (out s) /\
    texts (out s') = texts (out s) /\
    count is_status_get (out s') = count is_status_get (out s).
Proof.
  intros before after e s Hstart Hflag He s'.
  pose proof (teardown_releases s e (wired_run before) Hstart Hflag He) as Hrel.
  destruct (teardown_log s e He) as (Hf & Ht & Hg).
  pose proof (released_run after _ Hrel) as Hrel'. fold s' in Hrel'.
  pose proof Hrel as Hrel0.
  destruct Hrel as (Hcam & Hft & Hpt & Hshut).
  destruct (shut_quiet_run after _ Hshut) as (_ & Hf' & Ht').
  destruct (poll_quiet_run after (step s e)) as (_ & Hq).
  destruct (Hq Hpt) as (_ & Hg').
  fold s' in Hf', Ht', Hg'.
  split; [exact Hrel0 |]. split; [exact Hrel' |].
  repeat split; congruence.
Qed.

Lemma teardown_lets_go_of_everything_witness :
  let before := [PipelineUp started; WsOpen; FrameTick; PollTick] in
  let after := [FrameTick; PollTick; BlobReady true; BufferReady; WsOpen; Render] in
  let s := run mount before in
  let s' := run (step s ClickBack) after in
  camera (dom s) = true /\
  released (step s ClickBack) /\
  released s' /\
  count is_frame (out s') = count is_frame (out s) /\
  texts (out s') = texts (out s) /\
  count is_status_get (out s') = count is_status_get (out s).
Proof.
  split; [reflexivity |].
  apply (teardown_lets_go_of_everything
           [PipelineUp started; WsOpen; FrameTick; PollTick]
           [FrameTick; PollTick; BlobReady true; BufferReady; WsOpen; Render]
           ClickBack).
  - reflexivity.
  - reflexivity.
  - left; reflexivity.
Defined.

(** ** Disposal before the camera answers *)

Lemma leak_stays_refl (s : session) : leak_stays s s.
Proof. unfold leak_stays; auto. Qed.

Lemma leak_stays_trans (s1 s2 s3 : session) :
  leak_stays s1 s2 -> leak_stays s2 s3 -> leak_stays s1 s3.
Proof.
  unfold leak_stays; intros H1 H2 H. destruct (H1 H) as [H3 H4].
  destruct (H2 H3) as [H5 H6]. split; [exact H5 | congruence].
Qed.

Lemma leak_stays_step (s : session) (e : event) : leak_stays s (step s e).
Proof.
  destruct e; whole_handler; unfold leak_stays, leaked; fields; all_tests;
    read_log; by_parts.
Qed.

Lemma leak_stays_run (es : list event) (s : session) : leak_stays s (run s es).
Proof.
  revert s; induction es as [| e es IH]; intro s; cbn.
  - apply leak_stays_refl.
  - eapply leak_stays_trans; [apply leak_stays_step | apply IH].
Qed.

(** X7. When the component is disposed of while [startPipeline] is still
    waiting for the camera, and the camera is granted afterwards, the
    stream is stored, the pipeline stops there with an error (no socket is
    built, since the video element is gone) and nothing is left to stop the
    stream: whatever happens later the camera stays on, there is no socket
    and no track is ever stopped. *)
Theorem disposal_before_camera_leaks_it :
  forall (before after : list event) (r : startup),
    let s := run mount before in
    starting (dom s) = true ->
    mounted (dom s) = true ->
    r = started \/ r = play_failed ->
    let s1 := run s [Unmount; PipelineUp r] in
    camera (dom s1) = true /\
    socket (dom s1) = None /\
    wsStatus (state s1) = error /\
    camera (dom (run s1 after)) = true /\
    socket (dom (run s1 after)) = None /\
    count is_track_stop (out (run s1 after)) = count is_track_stop (out s1).
Proof.
  intros before after r s Hstart Hm Hr s1.
  destruct (wired_run before) as (_ & _ & _ & _ & _ & _ & _ & Hnone).
  fold s in Hnone. destruct (Hnone Hstart) as (Hsock & _).
  assert (U : mounted (dom (step s Unmount)) = false /\
              starting (dom (step s Unmount)) = true /\
              stopCalled (ref (step s Unmount)) = true /\
              socket (dom (step s Unmount)) = None).
  { revert Hstart Hm Hsock. whole_handler; fields; intros;
      repeat split; congruence. }
  assert (Hleak : leaked s1 /\ socket (dom s1) = None /\
                  wsStatus (state s1) = error).
  { subst s1. cbn [run fold_left]. revert U.
    generalize (step s Unmount). intros s' (U1 & U2 & U3 & U4).
    unfold step. rewrite U2. unfold startPipeline_resume, leaked.
    destruct Hr as [-> | ->]; cbv zeta; fields; rewrite ?U1; fields;
      repeat split; assumption. }
  destruct Hleak as (Hleak & Hs1 & Hst).
  destruct (leak_stays_run after s1 Hleak) as ((H1 & _) & H2).
  destruct Hleak as (H0 & _ & _ & Hsettled).
  assert (Hlater : socket (dom (run s1 after)) = None).
  { assert (G : forall es s0,
                socket (dom s0) = None -> starting (dom s0) = false ->
                socket (dom (run s0 es)) = None).
    { clear. induction es as [| e es IH]; intros s0 Hn Hst; [exact Hn |].
      change (run s0 (e :: es)) with (run (step s0 e) es).
      assert (K : socket (dom (step s0 e)) = None /\
                  starting (dom (step s0 e)) = false).
      { revert Hn Hst. destruct e; whole_handler; fields; intros;
          split; congruence. }
      destruct K as [K1 K2]. apply IH; assumption. }
    apply G; assumption. }
  repeat split; assumption.
Qed.

Lemma disposal_before_camera_leaks_it_witness :
  let s := run mount [CurrentLoaded (Some (Some "blue_litmus")); Render] in
  let s1 := run s [Unmount; PipelineUp started] in
  let after := [WsOpen; FrameTick; ClickBack; Unmount; BeforeUnload] in
  starting (dom s) = true /\
  mounted (dom s) = true /\
  camera (dom s1) = true /\
  socket (dom s1) = None /\
  wsStatus (state s1) = error /\
  camera (dom (run s1 after)) = true /\
  socket (dom (run s1 after)) = None /\
  count is_track_stop (out (run s1 after)) = count is_track_stop (out s1).
Proof.
  split; [reflexivity |]. split; [reflexivity |].
  apply (disposal_before_camera_leaks_it
           [CurrentLoaded (Some (Some "blue_litmus")); Render]
           [WsOpen; FrameTick; ClickBack; Unmount; BeforeUnload] started);
    [reflexivity | reflexivity | left; reflexivity].
Defined.

(** ** The indicator command *)

Lemma same_dep_eq (a b : option string) : same_dep a b = true <-> a = b.
Proof.
  unfold same_dep. destruct a as [x |], b as [y |];
    try (split; [discriminate | congruence]).
  - rewrite String.eqb_eq. split; congruence.
  - split; reflexivity.
Qed.

Lemma same_ind_refl (s : session) : same_ind s s.
Proof. reflexivity. Qed.

Lemma same_ind_trans (s1 s2 s3 : session) :
  same_ind s1 s2 -> same_ind s2 s3 -> same_ind s1 s3.
Proof. unfold same_ind; congruence. Qed.

Ltac ind_prim :=
  idtac; forget_history;
  unfold same_ind, ind_view, wsSend, ws_send, ws_close_call, clearInterval;
  fields; all_tests; rewrite ?count_snoc; cbn [is_set_reaction];
  rewrite ?Nat.add_0_r; reflexivity.

Lemma same_ind_stopPipeline (s : session) : same_ind s (stopPipeline s).
Proof.
  unfold stopPipeline; cbv zeta.
  peel same_ind_refl same_ind_trans ind_prim.
Qed.

Lemma same_ind_teardown (s : session) : same_ind s (teardown_cleanup s).
Proof.
  unfold teardown_cleanup; cbv zeta.
  peel same_ind_refl same_ind_trans
       ltac:(first [apply same_ind_stopPipeline | ind_prim]).
Qed.

Lemma same_ind_step (s : session) (e : event) :
  ind_event e = false -> same_ind s (step s e).
Proof.
  destruct e; intro He; try discriminate He; handlers.
  all: peel same_ind_refl same_ind_trans
         ltac:(first [apply same_ind_stopPipeline | apply same_ind_teardown
                     | ind_prim]).
Qed.

Lemma no_text_no_set_reaction (l : list output) :
  texts l = [] -> count is_set_reaction l = 0.
Proof.
  induction l as [| o l IH]; [reflexivity |].
  rewrite count_cons. destruct o as [[] | | | | | | | |]; cbn [texts is_set_reaction];
    intro H; try discriminate H; rewrite (IH H); reflexivity.
Qed.

Lemma indicator_step (s : session) (e : event) :
  replay_ready s -> indicator_once s -> indicator_once (step s e).
Proof.
  intros Hr Hi.
  destruct (ind_event e) eqn:He.
  - destruct e; try discriminate He; clear He.
    + (* the socket opens: nothing was sent before *)
      unfold step.
      destruct (socket (dom s)) as [[| | |] |] eqn:Hs; try exact Hi.
      destruct Hr as (_ & Hq & _ & _).
      assert (H0 : count is_set_reaction (out s) = 0).
      { apply no_text_no_set_reaction, Hq. unfold not_yet_open.
        rewrite Hs. reflexivity. }
      destruct Hi as (Hc & Hv & Href & Hle & Hone).
      unfold indicator_once, onopen, ws_send, is_open; cbv zeta; fields.
      all_tests;
        rewrite ?count_snoc; cbn [is_set_reaction]; rewrite ?Nat.add_0_r, H0;
        (split; [exact Hc |]; split; [exact Hv |]; split; [congruence |];
         split; [lia |]; intro H1; try discriminate H1).
      all: destruct Hv as [Hv | Hv]; [| congruence];
        split; [exact Hv | rewrite <- Href; reflexivity].
    + (* the indicator mode arrives: nothing was sent for it yet *)
      unfold step. destruct (currentPending (dom s)) eqn:Hp; [| exact Hi].
      destruct Hi as (Hc & Hv & Href & Hle & Hone).
      pose proof (Hc Hp) as Hnone.
      assert (Hview : reactionType (view s) = None).
      { destruct Hv as [Hv | Hv]; congruence. }
      assert (H0 : count is_set_reaction (out s) <> 1).
      { intro H1. destruct (Hone H1) as [_ Ht]. rewrite Hview in Ht.
        discriminate Ht. }
      unfold indicator_once, current_then; cbv zeta.
      destruct r as [ar |]; fields;
        (split; [discriminate |]; split; [right; exact Hview |];
         split; [exact Href |]; split; [exact Hle |]; intro H1; contradiction).
    + (* a render: the command goes out only for a mode not rendered yet *)
      unfold step. destruct (mounted (dom s)); [| exact Hi].
      destruct Hi as (Hc & Hv & Href & Hle & Hone).
      unfold indicator_once, render, wsSend, is_open; cbv zeta; fields.
      destruct (same_dep (reactionType (state s)) (reactionType (view s))) eqn:Hd.
      * apply same_dep_eq in Hd. fields.
        split; [exact Hc |]. split; [left; reflexivity |].
        split; [reflexivity |]. split; [exact Hle |].
        intro H1. destruct (Hone H1) as [_ Ht]. rewrite Hd.
        split; [reflexivity | exact Ht].
      * assert (Hne : reactionType (view s) <> reactionType (state s)).
        { intro H. rewrite H, same_dep_refl in Hd. discriminate Hd. }
        assert (H0 : count is_set_reaction (out s) = 0).
        { destruct (Nat.eq_dec (count is_set_reaction (out s)) 1) as [H1 | H1];
            [destruct (Hone H1) as [H2 _]; contradiction | lia]. }
        all_tests; use_tests;
          rewrite ?count_snoc; cbn [is_set_reaction]; rewrite ?Nat.add_0_r, ?H0;
          (split; [exact Hc |]; split; [left; reflexivity |];
           split; [reflexivity |]; split; [lia |];
           intro H1; try discriminate H1; split; reflexivity).
  - pose proof (same_ind_step s e He) as H.
    unfold same_ind, ind_view in H. injection H as H1 H2 H3 H4 H5.
    unfold indicator_once in *. rewrite H1, H2, H3, H4, H5. exact Hi.
Qed.

Lemma indicator_run (es : list event) : indicator_once (run mount es).
Proof.
  assert (H : forall s, replay_ready s -> indicator_once s ->
                        indicator_once (run s es)).
  { induction es as [| e es IH]; intros s Hr Hi; cbn.
    - exact Hi.
    - apply IH; [apply (ready_step s e Hr) | apply indicator_step; assumption]. }
  apply H; [apply ready_mount |].
  unfold indicator_once. cbn.
  split; [reflexivity |]. split; [left; reflexivity |].
  split; [reflexivity |]. split; [lia |]. discriminate.
Qed.

(** X9. In every run of a session the [set_reaction] command goes over the
    socket at most once. *)
Theorem set_reaction_at_most_once :
  forall es : list event,
    count is_set_reaction (out (run mount es)) <= 1.
Proof.
  intro es. destruct (indicator_run es) as (_ & _ & _ & H & _). exact H.
Qed.

(** X10. When the indicator mode arrives only after the socket has opened,
    the render that follows sends the [set_reaction] command for it, once;
    the renders after that send nothing. *)
Theorem late_indicator_is_sent_once :
  forall (es : list event) (a : ascii) (r : string) (n : nat),
    let s := run mount es in
    let rt := String a r in
    is_open s = true ->
    currentPending (dom s) = true ->
    mounted (dom s) = true ->
    let s' := run s [CurrentLoaded (Some (Some rt)); Render] in
    texts (out (step s (CurrentLoaded (Some (Some rt))))) = texts (out s) /\
    texts (out s') = texts (out s) ++ [set_reaction rt] /\
    texts (out (run s' (repeat Render n))) = texts (out s) ++ [set_reaction rt].
Proof.
  intros es a r n s rt Hopen Hpend Hm s'.
  destruct (wired_run es) as (_ & _ & _ & _ & Hws & _).
  destruct (indicator_run es) as (Hc & Hv & _).
  fold s in Hws, Hc, Hv.
  assert (Href : wsRef (ref s) = true).
  { apply Hws. unfold socket_alive. unfold is_open in Hopen.
    destruct (socket (dom s)) as [[| | |] |]; try discriminate Hopen; reflexivity. }
  pose proof (Hc Hpend) as Hstate.
  assert (Hview : reactionType (view s) = None).
  { destruct Hv as [Hv | Hv]; congruence. }
  assert (E1 : step s (CurrentLoaded (Some (Some rt))) =
               setReactionType (Some rt) (with_currentPending false s)).
  { unfold step. rewrite Hpend. reflexivity. }
  assert (E2 : texts (out s') = texts (out s) ++ [set_reaction rt] /\
               reactionType (view s') = reactionType (state s')).
  { subst s'. cbn [run fold_left]. rewrite E1. unfold step; fields.
    rewrite Hm. unfold render, wsSend, is_open; cbv zeta; fields.
    rewrite Hview. unfold is_open in Hopen.
    replace (same_dep (Some rt) None) with false by reflexivity.
    subst rt. fields. rewrite Href.
    destruct (socket (dom s)) as [[| | |] |]; try discriminate Hopen.
    fields. rewrite texts_snoc. split; reflexivity. }
  destruct E2 as [E2 E3].
  split; [rewrite E1; reflexivity |]. split; [exact E2 |].
  rewrite renders_quiet; assumption.
Qed.

Lemma late_indicator_is_sent_once_witness :
  let s := run mount [PipelineUp started; WsOpen] in
  let s' := run s [CurrentLoaded (Some (Some "red_litmus")); Render] in
  is_open s = true /\ currentPending (dom s) = true /\ mounted (dom s) = true /\
  texts (out (step s (CurrentLoaded (Some (Some "red_litmus"))))) = texts (out s) /\
  texts (out s') = texts (out s) ++ [set_reaction "red_litmus"] /\
  texts (out (run s' (repeat Render 3))) = texts (out s) ++ [set_reaction "red_litmus"].
Proof.
  split; [reflexivity |]. split; [reflexivity |]. split; [reflexivity |].
  apply (late_indicator_is_sent_once [PipelineUp started; WsOpen] "r"%char
           "ed_litmus" 3); reflexivity.
Defined.

(** X11. When the POST of a selection succeeds, the selection becomes the
    active one and the loading mark is cleared; the [set_chemical] command
    for it goes over the socket at once when the socket is open, and
    nothing is sent when it is not. *)
Theorem selection_success_is_pushed :
  forall (es : list event) (chem : chemical) (rest : list chemical),
    let s := run mount es in
    selectPending (dom s) = chem :: rest ->
    let s' := step s (SelectResponse true) in
    activeId (state s') = Some (id chem) /\
    activeChem (state s') = Some chem /\
    loadingChem (state s') = None /\
    texts (out s') =
      texts (out s) ++ (if is_open s then [set_chemical (id chem)] else []).
Proof.
  intros es chem rest s Hp s'.
  destruct (wired_run es) as (_ & _ & _ & _ & Hws & _). fold s in Hws.
  subst s'. unfold step. rewrite Hp.
  unfold handleSelectChemical_resume, wsSend; cbv zeta; fields.
  unfold is_open in *; fields. unfold socket_alive in Hws.
  destruct (socket (dom s)) as [[| | |] |];
    try (rewrite andb_false_r; fields; rewrite app_nil_r; auto).
  rewrite (Hws eq_refl). fields. rewrite texts_snoc. auto.
Qed.

Lemma selection_success_is_pushed_witness :
  let s := run mount [PipelineUp started; WsOpen; ClickChemical HCl] in
  let s' := step s (SelectResponse true) in
  selectPending (dom s) = [HCl] /\
  activeId (state s') = Some "HCl" /\
  activeChem (state s') = Some HCl /\
  loadingChem (state s') = None /\
  texts (out s') =
    texts (out s) ++ (if is_open s then [set_chemical "HCl"] else []).
Proof.
  split; [reflexivity |].
  apply (selection_success_is_pushed
           [PipelineUp started; WsOpen; ClickChemical HCl] HCl []).
  reflexivity.
Defined.



(** ** A frame job that never finishes *)

Lemma stalled_step (s : session) (e : event) :
  stalled s ->
  stalled (step s e) /\ count is_frame (out (step s e)) = count is_frame (out s).
Proof.
  unfold stalled, in_flight. intros [Hb Hn].
  destruct (frame_event e) eqn:He.
  - assert (E : step s e = s).
    { destruct e; try discriminate He; unfold step, sendFrame.
      - rewrite Hb, !orb_true_r. destruct (frameTimer (dom s)); reflexivity.
      - destruct (encoding (dom s)); [reflexivity | lia].
      - destruct (buffering (dom s)); [reflexivity | lia].
      - destruct (buffering (dom s)); [reflexivity | lia]. }
    rewrite E. auto.
  - pose proof (same_frames_step s e He) as H.
    unfold same_frames, frame_view in H. injection H as H1 H2 H3 H4.
    rewrite H1, H2, H3, H4. auto.
Qed.

Lemma stalled_run (es : list event) (s : session) :
  stalled s ->
  stalled (run s es) /\ count is_frame (out (run s es)) = count is_frame (out s).
Proof.
  revert s; induction es as [| e es IH]; intros s Hs; [cbn; auto |].
  change (run s (e :: es)) with (run (step s e) es).
  destruct (stalled_step s e Hs) as [H1 H2].
  destruct (IH _ H1) as [H3 H4]. split; [exact H3 | congruence].
Qed.

Lemma mount_busy_covers : busy_covers mount.
Proof. unfold busy_covers, in_flight; cbn; lia. Qed.

(** X12. When [arrayBuffer()] rejects, nothing clears the busy flag: from
    then on no job is under way, the flag stays set whatever happens, every
    later tick is skipped, and no frame is sent any more. *)
Theorem rejected_buffer_stalls_sender :
  forall before after : list event,
    let s := run mount before in
    buffering (dom s) <> 0 ->
    let s1 := step s BufferFailed in
    let s2 := run s1 after in
    sendingRef (ref s2) = true /\
    in_flight s2 = 0 /\
    step s2 FrameTick = s2 /\
    count is_frame (out s2) = count is_frame (out s).
Proof.
  intros before after s Hb s1 s2.
  destruct (frame_run before mount mount_busy_covers) as [Hc _]. fold s in Hc.
  assert (H1 : stalled s1 /\ out s1 = out s).
  { subst s1. unfold stalled, busy_covers, in_flight, step in *.
    destruct (buffering (dom s)) as [| n] eqn:E; [congruence |]. fields.
    destruct (sendingRef (ref s)); [split; [split; [reflexivity | lia] | reflexivity] | lia]. }
  destruct H1 as [H1 Ho].
  destruct (stalled_run after s1 H1) as [[H2 H3] H4]. fold s2 in H2, H3, H4.
  split; [exact H2 |]. split; [exact H3 |]. split; [| congruence].
  unfold step, sendFrame. rewrite H2, !orb_true_r.
  destruct (frameTimer (dom s2)); reflexivity.
Qed.

Lemma rejected_buffer_stalls_sender_witness :
  let s := run mount [PipelineUp started; WsOpen; FrameTick; BlobReady true] in
  let s2 := run (step s BufferFailed) [FrameTick; Render; FrameTick] in
  buffering (dom s) <> 0 /\
  sendingRef (ref s2) = true /\
  in_flight s2 = 0 /\
  step s2 FrameTick = s2 /\
  count is_frame (out s2) = count is_frame (out s).
Proof.
  split; [vm_compute; discriminate |].
  apply (rejected_buffer_stalls_sender
           [PipelineUp started; WsOpen; FrameTick; BlobReady true]
           [FrameTick; Render; FrameTick]).
  vm_compute; discriminate.
Defined.

(** X13. A null blob drops the frame and frees the sender: no job is left,
    nothing was sent, and the next tick of a pipeline that is still live
    starts a new job. *)
Theorem null_blob_frees_sender :
  forall before : list event,
    let s := run mount before in
    encoding (dom s) <> 0 ->
    let s1 := step s (BlobReady false) in
    sendingRef (ref s1) = false /\
    in_flight s1 = 0 /\
    out s1 = out s /\
    (frameTimer (dom s1) = true -> wsReady (ref s1) = true ->
     in_flight (step s1 FrameTick) = 1 /\
     sendingRef (ref (step s1 FrameTick)) = true).
Proof.
  intros before s He s1.
  destruct (frame_run before mount mount_busy_covers) as [Hc _]. fold s in Hc.
  destruct (wired_run before) as (_ & _ & _ & _ & _ & Hop & _). fold s in Hop.
  subst s1. unfold busy_covers, in_flight, step in *.
  destruct (encoding (dom s)) as [| n] eqn:E; [congruence |].
  unfold toBlob_callback, sendFrame, is_open; fields.
  destruct (sendingRef (ref s)); [| lia].
  assert (n = 0) by lia. assert (buffering (dom s) = 0) by lia. subst n.
  split; [reflexivity |]. split; [lia |]. split; [reflexivity |].
  intros Ht Hr. rewrite Ht. fields. rewrite Hr, (Hop Hr). fields. split; [lia | reflexivity].
Qed.

Lemma null_blob_frees_sender_witness :
  let s := run mount [PipelineUp started; WsOpen; FrameTick] in
  let s1 := step s (BlobReady false) in
  encoding (dom s) <> 0 /\
  sendingRef (ref s1) = false /\
  in_flight s1 = 0 /\
  out s1 = out s /\
  in_flight (step s1 FrameTick) = 1 /\
  sendingRef (ref (step s1 FrameTick)) = true.
Proof.
  split; [vm_compute; discriminate |].
  destruct (null_blob_frees_sender [PipelineUp started; WsOpen; FrameTick])
    as (H1 & H2 & H3 & H4); [vm_compute; discriminate |].
  split; [exact H1 |]. split; [exact H2 |]. split; [exact H3 |].
  apply H4; reflexivity.
Defined.

(** ** Where the outcome comes from *)

Lemma undecided_step (s : session) (e : event) :
  is_report e = false -> undecided s -> undecided (step s e).
Proof.
  destruct e as [r| |d| | |r| | |blob| | | |r|chem|ok| | | |]; cbn [is_report];
    try (destruct d as [[m|]|]); try (destruct r as [data|]);
    intro Hrep; whole_handler; unfold undecided; fields; by_parts.
Qed.

Lemma polling_step (s : session) (e : event) :
  is_report e = false -> is_exit e = false -> polling s -> polling (step s e).
Proof.
  destruct e as [r| |d| | |r| | |blob| | | |r|chem|ok| | | |];
    cbn [is_report is_exit];
    try (destruct d as [[m|]|]); try (destruct r as [data|]);
    intros Hrep Hex; try discriminate Hex;
    whole_handler; unfold polling; fields;
    try match goal with
        | H : revealData first_render = Some _ |- _ => discriminate H
        end;
    by_parts.
Qed.

(** X14. As long as no report of a finished reaction has come in, over the
    socket or from the poll, no outcome is set; and as long as the user has
    not left either, the status poll stays scheduled. *)
Theorem no_report_no_outcome :
  forall es : list event,
    existsb is_report es = false ->
    let s := run mount es in
    revealData (state s) = None /\
    revealData (view s) = None /\
    (existsb is_exit es = false ->
     pollTimer (dom s) = true /\ pollRef (ref s) = Some PollTimer).
Proof.
  intros es Hrep s.
  assert (G : forall es s0, existsb is_report es = false -> undecided s0 ->
              undecided (run s0 es) /\
              (existsb is_exit es = false -> polling s0 -> polling (run s0 es))).
  { clear. induction es as [| e es IH]; intros s0 Hrep Hu; [cbn; auto |].
    cbn [existsb] in Hrep. apply orb_false_iff in Hrep. destruct Hrep as [H1 H2].
    change (run s0 (e :: es)) with (run (step s0 e) es).
    destruct (IH (step s0 e) H2 (undecided_step s0 e H1 Hu)) as [H3 H4].
    split; [exact H3 |]. intros Hex Hp.
    cbn [existsb] in Hex. apply orb_false_iff in Hex. destruct Hex as [H5 H6].
    apply (H4 H6). apply polling_step; assumption. }
  destruct (G es mount Hrep) as [[H1 H2] H3]; [split; reflexivity |].
  fold s in H1, H2, H3.
  split; [exact H1 |]. split; [exact H2 |].
  intro Hex. apply (H3 Hex). split; reflexivity.
Qed.

Lemma no_report_no_outcome_witness :
  let es := [PipelineUp started; WsOpen; PollTick;
             PollResponse (Some (StatusReply false None None));
             ClickChemical HCl; SelectResponse true; Render] in
  let s := run mount es in
  existsb is_report es = false /\
  existsb is_exit es = false /\
  revealData (state s) = None /\
  revealData (view s) = None /\
  pollTimer (dom s) = true /\ pollRef (ref s) = Some PollTimer.
Proof.
  split; [reflexivity |]. split; [reflexivity |].
  destruct (no_report_no_outcome
              [PipelineUp started; WsOpen; PollTick;
               PollResponse (Some (StatusReply false None None));
               ClickChemical HCl; SelectResponse true; Render])
    as (H1 & H2 & H3); [reflexivity |].
  split; [exact H1 |]. split; [exact H2 |]. apply H3; reflexivity.
Defined.

(** ** The selection lock *)

(** X15. A click on a chemical puts one POST under way and, once rendered,
    locks the row: until that POST settles every further click is ignored,
    whatever chemical it names; the render after the POST has settled lifts
    the lock when no outcome is shown. *)
Theorem selection_lock :
  forall (s : session) (a b : chemical) (ok : bool),
    mounted (dom s) = true ->
    truthy (loadingChem (view s)) = false ->
    revealData (view s) = None ->
    selectPending (dom s) = [] ->
    id a <> EmptyString ->
    let s1 := run s [ClickChemical a; Render] in
    let s2 := run s1 [SelectResponse ok; Render] in
    selectPending (dom s1) = [a] /\
    out (step s (ClickChemical a)) = out s ++ [http_post "/reactions/set-chemical/"] /\
    step s1 (ClickChemical b) = s1 /\
    loadingChem (view s2) = None /\
    selectPending (dom s2) = [] /\
    (revealData (state s2) = None ->
     selectPending (dom (step s2 (ClickChemical b))) = [b]).
Proof.
  intros s a b ok Hm Hl Hr Hp Ha s1 s2.
  assert (Hid : truthy (Some (id a)) = true).
  { unfold truthy. destruct (id a); [congruence | reflexivity]. }
  assert (E0 : step s (ClickChemical a) =
               with_selectPending [a]
                 (emit (http_post "/reactions/set-chemical/")
                    (setRevealData None (setLoadingChem (Some (id a)) s)))).
  { unfold step, handleSelectChemical. rewrite Hm, Hl, Hr. cbv zeta; fields.
    rewrite Hp. reflexivity. }
  assert (V1 : loadingChem (view s1) = Some (id a) /\
               mounted (dom s1) = true /\ selectPending (dom s1) = [a]).
  { subst s1. cbn [run fold_left]. rewrite E0. unfold step; fields. rewrite Hm.
    unfold render, wsSend; cbv zeta; fields; all_tests; fields;
      repeat split; first [reflexivity | assumption]. }
  destruct V1 as (V1 & M1 & P1).
  split; [exact P1 |].
  split; [rewrite E0; reflexivity |].
  split.
  { unfold step, handleSelectChemical. rewrite M1, V1, Hid. reflexivity. }
  assert (V2 : loadingChem (view s2) = None /\ selectPending (dom s2) = [] /\
               mounted (dom s2) = true /\ revealData (view s2) = revealData (state s2)).
  { assert (A : mounted (dom (step s1 (SelectResponse ok))) = true /\
                selectPending (dom (step s1 (SelectResponse ok))) = [] /\
                loadingChem (state (step s1 (SelectResponse ok))) = None).
    { unfold step. rewrite P1.
      unfold handleSelectChemical_resume, wsSend; cbv zeta.
      destruct ok; fields; all_tests; fields;
        repeat split; first [reflexivity | assumption]. }
    destruct A as (A1 & A2 & A3).
    subst s2. cbn [run fold_left].
    generalize dependent (step s1 (SelectResponse ok)). intros s' A1 A2 A3.
    unfold step. rewrite A1.
    unfold render, wsSend; cbv zeta; fields; all_tests; fields;
      repeat split; first [reflexivity | assumption]. }
  destruct V2 as (L2 & P2 & M2 & R2).
  split; [exact L2 |]. split; [exact P2 |].
  intro Hn. unfold step, handleSelectChemical. rewrite M2, L2, R2, Hn.
  cbv zeta; fields. rewrite P2. reflexivity.
Qed.

Lemma selection_lock_witness :
  let s := run mount [PipelineUp started; WsOpen] in
  let s1 := run s [ClickChemical HCl; Render] in
  let s2 := run s1 [SelectResponse false; Render] in
  mounted (dom s) = true /\
  truthy (loadingChem (view s)) = false /\
  revealData (view s) = None /\
  selectPending (dom s) = [] /\
  id HCl <> EmptyString /\
  selectPending (dom s1) = [HCl] /\
  out (step s (ClickChemical HCl)) = out s ++ [http_post "/reactions/set-chemical/"] /\
  step s1 (ClickChemical NaOH) = s1 /\
  loadingChem (view s2) = None /\
  selectPending (dom s2) = [] /\
  selectPending (dom (step s2 (ClickChemical NaOH))) = [NaOH].
Proof.
  split; [reflexivity |]. split; [reflexivity |]. split; [reflexivity |].
  split; [reflexivity |]. split; [discriminate |].
  destruct (selection_lock (run mount [PipelineUp started; WsOpen]) HCl NaOH false)
    as (H1 & H2 & H3 & H4 & H5 & H6);
    [reflexivity | reflexivity | reflexivity | reflexivity | discriminate |].
  split; [exact H1 |]. split; [exact H2 |]. split; [exact H3 |].
  split; [exact H4 |]. split; [exact H5 |]. apply H6; reflexivity.
Defined.



Lemma selection_step (s : session) (e : event) :
  selection_coherent s -> selection_coherent (step s e).
Proof.
  destruct e; whole_handler; unfold selection_coherent; fields;
    cbn [option_map];
    first [ by_parts
          | intros [H1 H2]; split; [exact H1 |]; intro H;
            apply app_eq_nil in H; destruct H as [_ H]; discriminate H ].
Qed.

(** X16. At every moment the id shown as loaded is the id of the selected
    catalog entry (both unset, or both set by the same successful POST),
    and the loading mark is up only while the POST of a selection is still
    pending: it cannot get stuck. *)
Theorem selection_cells_in_step :
  forall es : list event,
    let s := run mount es in
    activeId (state s) = option_map id (activeChem (state s)) /\
    (selectPending (dom s) = [] -> loadingChem (state s) = None).
Proof.
  intros es s. subst s.
  assert (G : forall es s0, selection_coherent s0 -> selection_coherent (run s0 es)).
  { clear. induction es as [| e es IH]; intros s0 H; [exact H |].
    apply (IH (step s0 e)), selection_step, H. }
  apply (G es mount). split; [reflexivity | reflexivity].
Qed.



(** ** The selector-panel revision *)

Lemma buttons_app (l1 l2 : list Selector.element) :
  Selector.buttons (l1 ++ l2) = Selector.buttons l1 ++ Selector.buttons l2.
Proof.
  induction l1 as [| [| hd | b] l1 IH]; cbn [Selector.buttons app];
    rewrite ?IH; reflexivity.
Qed.

Lemma buttons_group (h : Selector.hooks) (hd tg : string) (xs : list chemical) :
  Selector.buttons (Selector.group h hd tg xs) =
  map (fun c => match Selector.group_button h tg c with
                | Selector.chem_button b => b
                | _ => Selector.Button EmptyString false EmptyString c false None
                         EmptyString EmptyString
                end) xs.
Proof.
  destruct xs as [| x xs]; [reflexivity |].
  unfold Selector.group. cbn [Selector.buttons].
  induction (x :: xs) as [| y ys IH]; [reflexivity |].
  cbn [map Selector.buttons Selector.group_button]. rewrite IH. reflexivity.
Qed.

Lemma group_targets (h : Selector.hooks) (hd tg : string) (xs : list chemical) :
  map Selector.onClick (Selector.buttons (Selector.group h hd tg xs)) = xs.
Proof.
  rewrite buttons_group, map_map. cbn [Selector.group_button Selector.onClick].
  apply map_id.
Qed.

Lemma panel_buttons (h : Selector.hooks) :
  Selector.buttons (Selector.panelBody h) =
  Selector.buttons
    (Selector.group h "Acids" "acid"
       (filter (fun c => is_str (type c) "acid") (Selector.chemicals h))) ++
  Selector.buttons
    (Selector.group h "Bases" "base"
       (filter (fun c => is_str (type c) "base") (Selector.chemicals h))) ++
  Selector.buttons
    (Selector.group h "Neutral" "neutral"
       (filter (fun c => is_str (type c) "neutral") (Selector.chemicals h))).
Proof.
  unfold Selector.panelBody; cbv zeta. rewrite !buttons_app.
  destruct (Selector.chemicals h); reflexivity.
Qed.

Lemma one_category (t : option string) :
  (is_str t "acid" = true -> is_str t "base" = false /\ is_str t "neutral" = false) /\
  (is_str t "base" = true -> is_str t "neutral" = false).
Proof.
  split; [intro H | intro H]; apply is_str_true in H; subst t;
    repeat split; reflexivity.
Qed.

Lemma three_filters (l : list chemical) :
  Permutation
    (filter (fun c => is_str (type c) "acid") l ++
     filter (fun c => is_str (type c) "base") l ++
     filter (fun c => is_str (type c) "neutral") l)
    (filter Selector.grouped l).
Proof.
  induction l as [| c l IH]; [constructor |].
  cbn [filter]. unfold Selector.grouped at 1.
  destruct (one_category (type c)) as [Ha Hb].
  destruct (is_str (type c) "acid") eqn:Ea.
  - destruct (Ha eq_refl) as [-> ->]. cbn [orb app]. constructor. exact IH.
  - destruct (is_str (type c) "base") eqn:Eb.
    + rewrite (Hb eq_refl). cbn [orb].
      apply Permutation_sym, Permutation_cons_app, Permutation_sym, IH.
    + cbn [orb]. destruct (is_str (type c) "neutral") eqn:En; [| exact IH].
      apply Permutation_sym. rewrite app_assoc.
      apply Permutation_cons_app. rewrite <- app_assoc.
      apply Permutation_sym, IH.
Qed.

(** X17. In the selector panel of the first revision the buttons are, up to
    order, the catalog entries whose category is acid, base or neutral, one
    button each: an entry of any other category gets no button, and no entry
    gets two. *)
Theorem panel_buttons_are_known_entries :
  forall h : Selector.hooks,
    Permutation (map Selector.onClick (Selector.buttons (Selector.panelBody h)))
                (filter Selector.grouped (Selector.chemicals h)) /\
    List.length (Selector.buttons (Selector.panelBody h)) +
    count (fun c => negb (Selector.grouped c)) (Selector.chemicals h) =
    List.length (Selector.chemicals h).
Proof.
  intro h.
  assert (P : Permutation
                (map Selector.onClick (Selector.buttons (Selector.panelBody h)))
                (filter Selector.grouped (Selector.chemicals h))).
  { rewrite panel_buttons, !map_app, !group_targets. apply three_filters. }
  split; [exact P |].
  apply Permutation_length in P. rewrite length_map in P. rewrite P.
  unfold count. generalize (Selector.chemicals h). clear.
  induction l as [| c l IH]; [reflexivity |].
  cbn [filter]. destruct (Selector.grouped c); cbn [negb List.length]; lia.
Qed.

Lemma in_group_button (h : Selector.hooks) (hd tg : string) (xs : list chemical)
      (b : Selector.button) :
  In b (Selector.buttons (Selector.group h hd tg xs)) ->
  exists c, In c xs /\ Selector.group_button h tg c = Selector.chem_button b.
Proof.
  rewrite buttons_group. intro H. apply in_map_iff in H.
  destruct H as (c & <- & Hc). exists c. split; [exact Hc | reflexivity].
Qed.

(** X18. Every button of the selector panel sits in the group of its
    entry's category: the tag printed on it names that category, its key is
    the entry's id, and its accent and the colour of its tag are the same,
    red for an acid, blue for a base and grey for a neutral entry. *)
Theorem button_matches_its_group :
  forall (h : Selector.hooks) (b : Selector.button),
    In b (Selector.buttons (Selector.panelBody h)) ->
    In (Selector.onClick b) (Selector.chemicals h) /\
    type (Selector.onClick b) = Some (Selector.tag b) /\
    Selector.key b = id (Selector.onClick b) /\
    Selector.accent b = Selector.tag_color b /\
    In (Selector.tag b, Selector.tag_color b)
       [("acid", "#f87171"); ("base", "#38bdf8"); ("neutral", "#a3a3a3")].
Proof.
  intros h b Hb. rewrite panel_buttons in Hb.
  apply in_app_or in Hb. destruct Hb as [Hb | Hb];
    [| apply in_app_or in Hb; destruct Hb as [Hb | Hb]];
    apply in_group_button in Hb; destruct Hb as (c & Hc & E);
    apply filter_In in Hc; destruct Hc as [Hin Ht];
    injection E as <-; cbn [Selector.onClick Selector.tag Selector.key
                            Selector.accent Selector.tag_color];
    apply is_str_true in Ht; rewrite Ht;
    (split; [exact Hin |]); (split; [reflexivity |]); (split; [reflexivity |]);
    (split; [reflexivity |]); cbn; auto.
Qed.

Lemma button_matches_its_group_witness :
  let h := Selector.Hooks [HCl; NaOH] (Some "HCl") None in
  let b := Selector.Button "NaOH" false "#38bdf8" NaOH false (Some "NaOH")
             "base" "#38bdf8" in
  In b (Selector.buttons (Selector.panelBody h)) /\
  In (Selector.onClick b) (Selector.chemicals h) /\
  type (Selector.onClick b) = Some (Selector.tag b) /\
  Selector.key b = id (Selector.onClick b) /\
  Selector.accent b = Selector.tag_color b /\
  In (Selector.tag b, Selector.tag_color b)
     [("acid", "#f87171"); ("base", "#38bdf8"); ("neutral", "#a3a3a3")].
Proof.
  split; [vm_compute; auto |].
  apply (button_matches_its_group (Selector.Hooks [HCl; NaOH] (Some "HCl") None)).
  vm_compute; auto.
Defined.

(** X19. A catalog that is not empty but holds only entries of unknown
    category leaves the selector panel blank: no button, no group heading,
    and not the loading hint either. *)
Theorem unknown_catalog_blank_panel :
  forall h : Selector.hooks,
    Selector.chemicals h <> [] ->
    forallb (fun c => negb (Selector.grouped c)) (Selector.chemicals h) = true ->
    Selector.panelBody h = [].
Proof.
  intros h Hne Hall.
  assert (F : forall lit, In lit categories ->
              filter (fun c => is_str (type c) lit) (Selector.chemicals h) = []).
  { intros lit Hlit. revert Hall. generalize (Selector.chemicals h). clear -Hlit.
    induction l as [| c l IH]; [reflexivity |].
    cbn [forallb filter]. intro H. apply andb_true_iff in H. destruct H as [H1 H2].
    unfold Selector.grouped in H1. apply negb_true_iff in H1.
    apply orb_false_iff in H1. destruct H1 as [H1 H3].
    apply orb_false_iff in H1. destruct H1 as [H1 H4].
    unfold categories in Hlit; simpl in Hlit.
    destruct Hlit as [<- | [<- | [<- | []]]];
      first [rewrite H1 | rewrite H4 | rewrite H3]; exact (IH H2). }
  unfold Selector.panelBody; cbv zeta.
  rewrite (F "acid"), (F "base"), (F "neutral") by (unfold categories; simpl; auto).
  destruct (Selector.chemicals h); [congruence | reflexivity].
Qed.

Lemma unknown_catalog_blank_panel_witness :
  let h := Selector.Hooks [retype HCl (Some "salt"); retype NaOH None] None None in
  Selector.chemicals h <> [] /\
  forallb (fun c => negb (Selector.grouped c)) (Selector.chemicals h) = true /\
  Selector.panelBody h = [].
Proof.
  split; [discriminate |]. split; [reflexivity |].
  apply (unknown_catalog_blank_panel
           (Selector.Hooks [retype HCl (Some "salt"); retype NaOH None] None None));
    [discriminate | reflexivity].
Defined.

Ltac selector_tests :=
  repeat match goal with
         | |- context [match ?t with _ => _ end] =>
             lazymatch t with
             | context [match _ with _ => _ end] => fail
             | _ => destruct t eqn:?
             end
         end.

Ltac selector_fields :=
  cbn [Selector.state Selector.view Selector.stopCalled Selector.catalogPending
       Selector.selectPending Selector.backPending Selector.unloadListener
       Selector.mounted Selector.out Selector.chemicals Selector.activeChemical
       Selector.loadingChem negb].

Ltac selector_handler :=
  unfold Selector.step, Selector.handleSelectChemical,
    Selector.handleSelectChemical_resume, Selector.handleBack, Selector.onUnload,
    Selector.unmount, Selector.setChemicals, Selector.setActiveChemical,
    Selector.setLoadingChem, Selector.put_stopCalled, Selector.with_pending,
    Selector.with_state, Selector.emit;
  cbv zeta; selector_fields; selector_tests; selector_fields.

Lemma selector_stop_step (s : Selector.session) (e : Selector.event) :
  Selector.stop_accounted s -> Selector.stop_accounted (Selector.step s e).
Proof.
  unfold Selector.stop_accounted.
  destruct e; selector_handler; rewrite ?count_snoc; cbn [is_stop_post Nat.b2n];
    repeat match goal with
           | |- context [String.eqb ?a ?b] =>
               change (String.eqb a b) with true || change (String.eqb a b) with false
           end;
    cbn [Nat.b2n]; intros [H1 H2];
    destruct (Selector.stopCalled s); cbn [Nat.b2n negb] in *;
    try discriminate; split; intros; first [lia | congruence | auto].
Qed.

Lemma selector_run_app (s : Selector.session) (es1 es2 : list Selector.event) :
  Selector.run s (es1 ++ es2) = Selector.run (Selector.run s es1) es2.
Proof. apply fold_left_app. Qed.

Lemma selector_requests_step (s : Selector.session) (e : Selector.event) :
  count Selector.is_stop_request (Selector.out (Selector.step s e)) +
  count is_stop_post (Selector.out s) =
  count Selector.is_stop_request (Selector.out s) +
  count is_stop_post (Selector.out (Selector.step s e)) +
  Selector.unloads s [e].
Proof.
  destruct e; selector_handler; cbn [Selector.unloads Nat.b2n];
    rewrite ?count_snoc; cbn [is_stop_post Selector.is_stop_request];
    repeat match goal with
           | |- context [String.eqb ?a ?b] =>
               change (String.eqb a b) with true || change (String.eqb a b) with false
           end;
    repeat match goal with
           | H : Selector.unloadListener s = _ |- _ => rewrite H
           end;
    cbn [Nat.b2n]; lia.
Qed.

Lemma selector_requests_run (es : list Selector.event) (s : Selector.session) :
  count Selector.is_stop_request (Selector.out (Selector.run s es)) +
  count is_stop_post (Selector.out s) =
  count Selector.is_stop_request (Selector.out s) +
  count is_stop_post (Selector.out (Selector.run s es)) +
  Selector.unloads s es.
Proof.
  revert s; induction es as [| e es IH]; intro s.
  - cbn [Selector.run fold_left Selector.unloads]. lia.
  - change (Selector.run s (e :: es))
      with (Selector.run (Selector.step s e) es).
    pose proof (IH (Selector.step s e)) as H1.
    pose proof (selector_requests_step s e) as H2.
    cbn [Selector.unloads] in *. lia.
Qed.

(** X20. In the first revision the one-shot flag covers the stop request
    that goes through axios: a Back click and the effect cleanup POST it at
    most once between them, whatever the order of clicks, unmounting and
    late answers, and exactly once by the time the component has unmounted.
    The unload listener is outside the flag: every [beforeunload] that finds
    it registered sends a beacon to the stop endpoint as well.  So the stop
    requests of a run are the POST, if any, plus one beacon per such unload;
    a Back click followed by an unload sends two. *)
Theorem selector_stop_requests_counted :
  forall es : list Selector.event,
    let s := Selector.run Selector.mount es in
    count is_stop_post (Selector.out s) <= 1 /\
    (Selector.mounted s = false -> count is_stop_post (Selector.out s) = 1) /\
    count Selector.is_stop_request (Selector.out s) =
      count is_stop_post (Selector.out s) + Selector.unloads Selector.mount es /\
    count Selector.is_stop_request
      (Selector.out
         (Selector.run Selector.mount [Selector.ClickBack; Selector.BeforeUnload]))
    = 2.
Proof.
  intros es s.
  assert (G : Selector.stop_accounted s).
  { subst s. induction es as [| e es IH] using rev_ind.
    - split; [reflexivity | discriminate].
    - rewrite selector_run_app. apply selector_stop_step, IH. }
  destruct G as [G1 G2].
  split; [rewrite G1; destruct (Selector.stopCalled s); cbn; lia |].
  split; [intro Hm; rewrite G1, (G2 Hm); reflexivity |].
  split; [| vm_compute; reflexivity].
  pose proof (selector_requests_run es Selector.mount) as H. fold s in H.
  change (count Selector.is_stop_request (Selector.out Selector.mount)) with 0 in H.
  change (count is_stop_post (Selector.out Selector.mount)) with 0 in H.
  lia.
Qed.

(** X21. In the first revision the entry shown as active is always one the
    user has clicked, and by then the POST of a selection has succeeded (a
    failed POST keeps the previous selection); and the loading mark is up
    only while the POST of a selection is pending. *)
Theorem selector_active_was_confirmed :
  forall es : list Selector.event,
    let s := Selector.run Selector.mount es in
    (forall a, Selector.activeChemical (Selector.state s) = Some a ->
       In (Selector.SelectResponse true) es /\
       exists chem, In (Selector.ClickChemical chem) es /\ id chem = a) /\
    (Selector.selectPending s = [] ->
     Selector.loadingChem (Selector.state s) = None).
Proof.
  intros es s.
  assert (G : (forall c, In c (Selector.selectPending s) ->
                 In (Selector.ClickChemical c) es) /\
              (forall a, Selector.activeChemical (Selector.state s) = Some a ->
                 In (Selector.SelectResponse true) es /\
                 exists chem, In (Selector.ClickChemical chem) es /\ id chem = a) /\
              Selector.mark_backed s).
  { subst s. induction es as [| e es IH] using rev_ind.
    - split; [intros c [] |]. split; [discriminate | intro; reflexivity].
    - rewrite selector_run_app.
      destruct IH as (I1 & I2 & I3). revert I1 I2 I3.
      generalize (Selector.run Selector.mount es). intros s I1 I2 I3.
      assert (W : forall x, In x es -> In x (es ++ [e])).
      { intros x Hx. apply in_or_app. left. exact Hx. }
      assert (L : In e (es ++ [e])).
      { apply in_or_app. right. left. reflexivity. }
      unfold Selector.mark_backed in *.
      cbn [Selector.run fold_left].
      destruct e as [r| |chem|ok| | | |]; selector_handler;
        (split; [| split]); intros;
        repeat match goal with
               | H : In _ (_ ++ [_]) |- _ =>
                   apply in_app_or in H; destruct H as [H | [<- | []]]
               | H : Some _ = Some _ |- _ => injection H as <-
               | H : _ ++ [_] = [] |- _ =>
                   apply app_eq_nil in H; destruct H as [_ H]; discriminate H
               | E : Selector.selectPending ?x = _,
                 H : In _ (Selector.selectPending ?x) |- _ => rewrite E in H
               | H : In _ [] |- _ => destruct H
               end;
        try discriminate;
        try solve [ auto
                  | apply W, I1; rewrite ?Heql; cbn [In]; auto
                  | destruct (I2 _ ltac:(eassumption)) as (J1 & chem' & J2 & J3);
                    split; [auto | exists chem'; auto]
                  | split; [exact L |];
                    eexists; split; [apply W, I1; rewrite ?Heql; left; reflexivity
                                    | reflexivity] ]. }
  destruct G as (_ & G2 & G3). split; [exact G2 | exact G3].
Qed.



(** X22. The socket address is secure exactly when the page is: it starts
    with [wss://] when the page was loaded over [https:] and with [ws://]
    for every other protocol, whatever the host; the host is the build-time
    one when that is set and not empty, and the page's own otherwise. *)
Theorem socket_scheme_follows_page :
  forall (protocol : string) (env : option string) (host : string),
    (String.prefix "wss://" (getWsUrl protocol env host) = true <->
     protocol = "https:") /\
    (String.prefix "ws://" (getWsUrl protocol env host) = true <->
     protocol <> "https:") /\
    exists h,
      getWsUrl protocol env host =
        String.append (if String.eqb protocol "https:" then "wss://" else "ws://")
                      (String.append h "/ws/lab/") /\
      (truthy env = true -> env = Some h) /\
      (truthy env = false -> h = host).
Proof.
  intros protocol env host. unfold getWsUrl; cbv zeta.
  assert (P : forall u, String.prefix EmptyString u = true)
    by (intros [| a u]; reflexivity).
  assert (H : exists h,
             match or_else env (Some host) with Some h => h | None => host end = h /\
             (truthy env = true -> env = Some h) /\
             (truthy env = false -> h = host)).
  { unfold or_else. destruct (truthy env) eqn:T.
    - destruct env as [h |]; [| discriminate T].
      exists h. split; [reflexivity |]. split; [reflexivity | discriminate].
    - exists host. split; [reflexivity |]. split; [discriminate | reflexivity]. }
  destruct H as (h & -> & H1 & H2).
  destruct (String.eqb_spec protocol "https:") as [E | E].
  - split; [| split].
    + cbn. rewrite P. split; auto.
    + cbn. split; [intro H; discriminate H | intro H; contradiction].
    + exists h. split; [reflexivity |]. split; assumption.
  - split; [| split].
    + cbn. split; [intro H; discriminate H | intro H; contradiction].
    + cbn. rewrite P. split; auto.
    + exists h. split; [reflexivity |]. split; assumption.
Qed.

(** * The ref mirrors lag the state by a render *)

(** Once the socket is past connecting, only a confirmed selection sends a
    [set_chemical] command. *)
Lemma past_open_step (s : session) (e : event) :
  is_confirm e = false ->
  past_open s ->
  past_open (step s e) /\
  count is_set_chemical (out (step s e)) = count is_set_chemical (out s).
Proof.
  unfold past_open.
  destruct e as [r| |d| | |r| | |blob| | | |r|chem|ok| | | |];
    cbn [is_confirm]; try (destruct ok); intro Hc; try discriminate Hc;
    whole_handler; fields; rewrite ?count_app; repeat rewrite count_cons;
    rewrite ?count_nil; cbn [is_set_chemical]; rewrite ?Nat.add_0_r;
    intros [H1 H2]; repeat split; first [congruence | lia | tauto].
Qed.

Lemma past_open_run (es : list event) (s : session) :
  existsb is_confirm es = false ->
  past_open s ->
  count is_set_chemical (out (run s es)) = count is_set_chemical (out s).
Proof.
  revert s; induction es as [| e es IH]; intros s Hc Hs; [reflexivity |].
  cbn [existsb] in Hc. apply orb_false_iff in Hc. destruct Hc as [H1 H2].
  change (run s (e :: es)) with (run (step s e) es).
  destruct (past_open_step s e H1 Hs) as [H3 H4].
  rewrite (IH _ H2 H3). exact H4.
Qed.

Lemma renders_texts (n : nat) (s : session) (l : list command) :
  reactionType (view s) = reactionType (state s) ->
  texts (out s) = l ->
  texts (out (run s (repeat Render n))) = l.
Proof. intros H <-. rewrite renders_quiet by exact H. reflexivity. Qed.

(** C5 (the code departs from it). [ws.onopen] replays what the two ref
    mirrors hold, and the mirrors are written by effects, after a render.
    First run: the indicator mode is known and rendered, a selection is
    confirmed while the socket is connecting, and the socket opens before
    the next render.  The replay is the indicator command alone; and
    afterwards, whatever happens, no [set_chemical] is sent unless another
    selection is confirmed.  Second run: the selection is rendered, the
    indicator mode arrives, and the socket opens before the next render.
    The replay is the [set_chemical] command alone, and the render that
    follows sends the indicator command after it. *)
Theorem open_before_render_misses_replay :
  let blue := CurrentLoaded (Some (Some "blue_litmus")) in
  let s1 := run mount [PipelineUp started; blue; Render;
                       ClickChemical HCl; SelectResponse true] in
  let s2 := run mount [PipelineUp started; ClickChemical HCl;
                       SelectResponse true; Render; blue] in
  (is_connecting s1 = true /\
   reactionType (state s1) = Some "blue_litmus" /\
   activeChem (state s1) = Some HCl /\
   texts (out s1) = [] /\
   texts (out (step s1 WsOpen)) = [set_reaction "blue_litmus"] /\
   (forall n : nat,
      texts (out (run (step s1 WsOpen) (repeat Render n))) =
      [set_reaction "blue_litmus"]) /\
   (forall after : list event,
      existsb is_confirm after = false ->
      count is_set_chemical (out (run (step s1 WsOpen) after)) = 0)) /\
  (is_connecting s2 = true /\
   reactionType (state s2) = Some "blue_litmus" /\
   activeChem (state s2) = Some HCl /\
   texts (out s2) = [] /\
   texts (out (step s2 WsOpen)) = [set_chemical "HCl"] /\
   (forall n : nat,
      texts (out (run (run s2 [WsOpen; Render]) (repeat Render n))) =
      [set_chemical "HCl"; set_reaction "blue_litmus"])).
Proof.
  cbv zeta. split.
  - split; [vm_compute; reflexivity |]. split; [vm_compute; reflexivity |].
    split; [vm_compute; reflexivity |]. split; [vm_compute; reflexivity |].
    split; [vm_compute; reflexivity |]. split.
    + intro n. apply renders_texts; vm_compute; reflexivity.
    + intros after Hc. rewrite (past_open_run after _ Hc).
      * vm_compute; reflexivity.
      * split; [vm_compute; reflexivity | vm_compute; discriminate].
  - split; [vm_compute; reflexivity |]. split; [vm_compute; reflexivity |].
    split; [vm_compute; reflexivity |]. split; [vm_compute; reflexivity |].
    split; [vm_compute; reflexivity |].
    intro n. apply renders_texts; vm_compute; reflexivity.
Qed.

(** C8 (the code departs from it). A completion report that leaves out its
    snapshot is filled from the two ref mirrors, which hold what the last
    render saw.  First run: a base is selected and rendered, then an acid is
    selected and confirmed, and the report comes before the next render:
    the outcome is the one of the base that was selected before.  Second
    run: the indicator mode has arrived but is not rendered yet: the outcome
    is built without an indicator.  Third run: the first selection is
    confirmed but not rendered yet: no outcome is set at all.  On each run
    the pushed report and the answer to the poll do the same. *)
Theorem completion_fills_from_stale_mirror :
  let blue := CurrentLoaded (Some (Some "blue_litmus")) in
  let s1 := run mount [PipelineUp started; WsOpen; blue;
                       ClickChemical NaOH; SelectResponse true; Render;
                       PollTick; ClickChemical HCl; SelectResponse true] in
  let s2 := run mount [PipelineUp started; WsOpen;
                       ClickChemical HCl; SelectResponse true; Render;
                       PollTick; blue] in
  let s3 := run mount [PipelineUp started; WsOpen; blue; Render;
                       PollTick; ClickChemical HCl; SelectResponse true] in
  let current := {| headline := "Acid Detected!";
                    body := "The Blue Litmus paper turned Red because Hydrochloric Acid (HCl) is an acid. Acids donate protons (H⁺), which causes blue litmus to change colour.";
                    verdict := "ACID CONFIRMED"; rcolor := "#f87171" |} in
  (forall s, In s [s1; s2; s3] ->
     is_open s = true /\ statusPending (dom s) <> 0 /\
     activeChem (state s) = Some HCl /\
     reactionType (state s) = Some "blue_litmus") /\
  buildRevealMessage (Some HCl) (Some "blue_litmus") = Some current /\
  (forall e, In e [complete_push None None; complete_poll None None] ->
     option_map verdict (revealData (state (step s1 e))) = Some "NO CHANGE" /\
     revealData (state (step s1 e)) =
       buildRevealMessage (Some NaOH) (Some "blue_litmus") /\
     option_map verdict (revealData (state (step s2 e))) = Some "NO CHANGE" /\
     revealData (state (step s2 e)) = buildRevealMessage (Some HCl) None /\
     revealData (state (step s3 e)) = None).
Proof.
  cbv zeta. split; [| split].
  - intros s [<- | [<- | [<- | []]]];
      (split; [reflexivity |]); (split; [discriminate |]); split; reflexivity.
  - reflexivity.
  - intros e [<- | [<- | []]]; repeat split; vm_compute; reflexivity.
Qed.

End Lab.
